(** * Ikarus 3D product recommendation frontend: model and verification

    The development follows the TypeScript sources of the frontend:

    - [JS]: the fragment of JavaScript strings and completions the code uses
      ([trim], [toLowerCase], [includes], truthiness, exceptions);
    - [Types]: [frontend/src/types/index.ts];
    - [Api]: [frontend/src/services/api.ts] (the [ApiService] class);
    - [RecommendationPage]: the event handlers of
      [frontend/src/pages/RecommendationPage.tsx];
    - [Retrieval]: the retrieval pipeline behind [POST /api/v1/recommendations],
      which the frontend only declares and calls.

    Strings are sequences of code units in the range U+0000..U+00FF (Rocq's
    [ascii] read as Latin-1); on that range [toLowerCase] and [trim] below are
    the ECMAScript functions. The statements about the search speak of the
    lower-casings the code computes and use no property of [toLowerCase]. *)

From Stdlib Require Import ZArith NArith Ascii String List Bool Lia.
From stdpp Require Import base decidable option list strings gmap sorting.

Local Open Scope Z_scope.

(* ===================================================================== *)
(** * JavaScript strings and completions                                  *)
(* ===================================================================== *)

Module JS.

Definition code (c : ascii) : N := N_of_ascii c.

(** ECMAScript WhiteSpace and LineTerminator code points below U+0100:
    TAB, LF, VT, FF, CR, SPACE and NO-BREAK SPACE. *)
Definition isWhiteSpace (c : ascii) : bool :=
  let n := code c in
  ((9 <=? n) && (n <=? 13) || (n =? 32) || (n =? 160))%N.

(** [A]..[Z] and the Latin-1 capitals U+00C0..U+00DE (without the
    multiplication sign U+00D7) have a lower-case form 32 positions up. *)
Definition isUpper (c : ascii) : bool :=
  let n := code c in
  ((65 <=? n) && (n <=? 90)
   || (192 <=? n) && (n <=? 222) && negb (n =? 215))%N.

Definition lowerChar (c : ascii) : ascii :=
  if isUpper c then ascii_of_N (code c + 32) else c.

(** [String.prototype.toLowerCase] *)
Fixpoint toLowerCase (s : string) : string :=
  match s with
  | EmptyString => EmptyString
  | String c s' => String (lowerChar c) (toLowerCase s')
  end.

(** [s.startsWith(p)] *)
Fixpoint startsWith (s p : string) {struct p} : bool :=
  match p, s with
  | EmptyString, _ => true
  | String _ _, EmptyString => false
  | String b p', String a s' => Ascii.eqb a b && startsWith s' p'
  end.

(** [String.prototype.includes]: is [p] a contiguous part of [s]? *)
Fixpoint includes (s p : string) : bool :=
  startsWith s p
  || match s with
     | EmptyString => false
     | String _ s' => includes s' p
     end.

Fixpoint trimStart (s : string) : string :=
  match s with
  | EmptyString => EmptyString
  | String c s' => if isWhiteSpace c then trimStart s' else s
  end.

Fixpoint trimEnd (s : string) : string :=
  match s with
  | EmptyString => EmptyString
  | String c s' =>
      match trimEnd s' with
      | EmptyString => if isWhiteSpace c then EmptyString else String c EmptyString
      | t => String c t
      end
  end.

(** [String.prototype.trim] *)
Definition trim (s : string) : string := trimEnd (trimStart s).

(** Truthiness of a string: every string but the empty one. *)
Definition truthy (s : string) : bool :=
  match s with EmptyString => false | String _ _ => true end.

(** Truthiness of an optional string property ([undefined] is falsy). *)
Definition truthy_opt (o : option string) : bool :=
  match o with Some s => truthy s | None => false end.

(** [o || d] for an optional array: arrays are truthy, [undefined] is not. *)
Definition or_else {A} (o : option A) (d : A) : A :=
  match o with Some a => a | None => d end.

Inductive Exception : Type :=
| TypeError                    (* property access on [undefined] *)
| AxiosError (reason : string) (* a rejected request *)
| Error (message : string).    (* [new Error(message)] *)

(** The result of evaluating an expression or of awaiting a promise. *)
Inductive Completion (A : Type) : Type :=
| Return (a : A)
| Throw (e : Exception).
Arguments Return {A} a.
Arguments Throw {A} e.

Definition bindC {A B} (c : Completion A) (k : A -> Completion B) : Completion B :=
  match c with
  | Return a => k a
  | Throw e => Throw e
  end.

(** [Array.prototype.filter] with a callback that may throw: the callback
    runs on the elements from left to right and the first exception ends
    the call. *)
Fixpoint filterC {A} (f : A -> Completion bool) (l : list A) : Completion (list A) :=
  match l with
  | [] => Return []
  | x :: l' =>
      bindC (f x) (fun keep =>
      bindC (filterC f l') (fun rest =>
      Return (if keep then x :: rest else rest)))
  end.

(** [Array.prototype.map] with a callback that may throw. *)
Fixpoint mapC {A B} (f : A -> Completion B) (l : list A) : Completion (list B) :=
  match l with
  | [] => Return []
  | x :: l' =>
      bindC (f x) (fun y =>
      bindC (mapC f l') (fun rest =>
      Return (y :: rest)))
  end.

End JS.

(* ===================================================================== *)
(** * frontend/src/types/index.ts                                         *)
(* ===================================================================== *)

Module Types.

(** A JavaScript [number]; the numbers of this interface are counts,
    prices and durations, modelled as integers. *)
Definition number : Type := Z.

Record Product : Type := {
  id : string;
  title : string;
  brand : string;
  price : string;
  description : string;
  images : list string;
  categories : list string;
  material : string;
  color : string;
  country_of_origin : string;
  manufacturer : string;
  package_dimensions : string;
  uniq_id : string
}.

(** The [filters] property of a [RecommendationRequest]. *)
Record Filters : Type := {
  f_categories : option (list string);
  f_price_range : option (number * number);
  f_brand : option (list string);
  f_material : option (list string)
}.

Record RecommendationRequest : Type := {
  rq_query : string;
  rq_limit : option number;
  rq_filters : option Filters
}.

Record RecommendationResponse : Type := {
  recommendations : list Product;
  query : string;
  total_found : number;
  processing_time : number
}.

Record ApiResponse (T : Type) : Type := {
  success : bool;
  data : T;
  message : option string;
  error : option string
}.
Arguments success {T} _.
Arguments data {T} _.
Arguments message {T} _.
Arguments error {T} _.

End Types.

(* ===================================================================== *)
(** * frontend/src/pages/RecommendationPage.tsx: the page's own Product   *)
(* ===================================================================== *)

Module PageTypes.

(** [categories: string | string[]] *)
Inductive Categories : Type :=
| CategoryText (s : string)
| CategoryList (l : list string).

(** The [Product] interface declared by the page: [material] and
    [ai_description] are optional properties. *)
Record Product : Type := {
  id : string;
  title : string;
  brand : string;
  price : string;
  description : string;
  image : string;
  categories : Categories;
  material : option string;
  ai_description : option string
}.

(** [{ ...p, ai_description: d }] *)
Definition with_ai_description (p : Product) (d : option string) : Product :=
  {| id := id p; title := title p; brand := brand p; price := price p;
     description := description p; image := image p;
     categories := categories p; material := material p;
     ai_description := d |}.

(** The object literal [generateAIDescription] sends to the backend. *)
Record ProductData : Type := {
  pd_title : string;
  pd_brand : string;
  pd_material : option string;
  pd_categories : Categories;
  pd_price : string;
  pd_description : string
}.

Definition product_data (p : Product) : ProductData :=
  {| pd_title := title p; pd_brand := brand p; pd_material := material p;
     pd_categories := categories p; pd_price := price p;
     pd_description := description p |}.

(** Body of [GET /api/v1/products/sample], as far as the page reads it. *)
Record SampleProducts : Type := { products : option (list Product) }.

(** Body of [POST /api/v1/products/:id/generate-description], as far as the
    page reads it. *)
Record GeneratedDescription : Type := { gd_ai_description : option string }.

End PageTypes.

(* ===================================================================== *)
(** * frontend/src/services/api.ts                                        *)
(* ===================================================================== *)

Module Api.
Import JS.

Record AxiosResponse (T : Type) : Type := { status : Z; data : T }.
Arguments status {T} _.
Arguments data {T} _.

(** The requests the client sends; the trace of a handler lists them in
    the order sent. *)
Inductive Request : Type :=
| GetHealth
| GetSampleProducts
| PostGenerateDescription (productId : string) (productData : PageTypes.ProductData)
| PostRecommendations (request : Types.RecommendationRequest).

Definition url (r : Request) : string :=
  match r with
  | GetHealth => "/health"
  | GetSampleProducts => "/api/v1/products/sample"
  | PostGenerateDescription productId _ =>
      "/api/v1/products/" +:+ productId +:+ "/generate-description"
  | PostRecommendations _ => "/api/v1/recommendations"
  end.

(** A body declared as [ApiResponse<T>], as it arrives: the declaration is
    not checked at run time, and a property the body lacks reads as
    [undefined], here [None]. *)
Record Reply (T : Type) : Type := {
  reply_success : option bool;
  reply_data : option T;
  reply_message : option string;
  reply_error : option string
}.
Arguments reply_success {T} _.
Arguments reply_data {T} _.
Arguments reply_message {T} _.
Arguments reply_error {T} _.

(** What the axios instance answers to each request. A promise axios
    rejects (network error, timeout, status outside 2xx) is a [Throw]. The
    [data] of a response is [None] when the body is [null]; every other
    body is a [Some] whose missing properties are [None] (the empty text of
    a response without content is such a body: it has no property). *)
Record Backend : Type := {
  get_health : Completion (AxiosResponse unit);
  get_sample_products :
    Completion (AxiosResponse (option PageTypes.SampleProducts));
  post_generate_description :
    string -> PageTypes.ProductData ->
    Completion (AxiosResponse (option PageTypes.GeneratedDescription));
  post_recommendations :
    Types.RecommendationRequest ->
    Completion (AxiosResponse (option (Reply Types.RecommendationResponse)))
}.

(** Both response interceptors log and pass their argument on. *)
Definition response_interceptor {A} (c : Completion A) : Completion A :=
  match c with
  | Return response => Return response
  | Throw error => Throw error
  end.

(** An asynchronous computation over a component state [S]: it reads the
    backend, updates the state, and records the requests it sends.
    Writes to the console are not modelled. *)
Definition Eff (S A : Type) : Type :=
  Backend -> S -> Completion A * S * list Request.

Definition ret {S A} (a : A) : Eff S A := fun _ s => (Return a, s, []).

Definition throw {S A} (e : Exception) : Eff S A := fun _ s => (Throw e, s, []).

Definition bind {S A B} (m : Eff S A) (k : A -> Eff S B) : Eff S B :=
  fun b s =>
    match m b s with
    | (Return a, s1, t1) =>
        let '(r, s2, t2) := k a b s1 in (r, s2, t1 ++ t2)
    | (Throw e, s1, t1) => (Throw e, s1, t1)
    end.

(** [try { m } catch (e) { h e }] *)
Definition try_catch {S A} (m : Eff S A) (h : Exception -> Eff S A) : Eff S A :=
  fun b s =>
    match m b s with
    | (Return a, s1, t1) => (Return a, s1, t1)
    | (Throw e, s1, t1) =>
        let '(r, s2, t2) := h e b s1 in (r, s2, t1 ++ t2)
    end.

(** [try { m } finally { f }] for an [f] that completes normally. *)
Definition finally {S A} (m : Eff S A) (f : Eff S unit) : Eff S A :=
  fun b s =>
    let '(r, s1, t1) := m b s in
    match f b s1 with
    | (Return _, s2, t2) => (r, s2, t1 ++ t2)
    | (Throw e, s2, t2) => (Throw e, s2, t1 ++ t2)
    end.

Definition gets {S A} (f : S -> A) : Eff S A := fun _ s => (Return (f s), s, []).

Definition modify {S} (f : S -> S) : Eff S unit := fun _ s => (Return tt, f s, []).

(** [await this.api.get(...)] / [await this.api.post(...)] *)
Definition request {S A} (r : Request) (answer : Backend -> Completion A) : Eff S A :=
  fun b s => (response_interceptor (answer b), s, [r]).

Definition lift {S A} (c : Completion A) : Eff S A := fun _ s => (c, s, []).

#[global] Instance Eff_ret S : MRet (Eff S) := fun A => @ret S A.
#[global] Instance Eff_bind S : MBind (Eff S) := fun A B k m => bind m k.

Section ApiService.
Context {S : Type}.

Definition healthCheck : Eff S bool :=
  try_catch
    (response ← request GetHealth get_health;
     ret (status response =? 200))
    (fun _ => ret false).

Definition getSampleProducts : Eff S (option PageTypes.SampleProducts) :=
  try_catch
    (response ← request GetSampleProducts get_sample_products;
     ret (data response))
    (fun error => throw error).

Definition generateAIDescription (productId : string)
    (productData : PageTypes.ProductData)
    : Eff S (option PageTypes.GeneratedDescription) :=
  try_catch
    (response ← request (PostGenerateDescription productId productData)
                  (fun b => post_generate_description b productId productData);
     ret (data response))
    (fun error => throw error).

(** [response.data.data] is [undefined], here [None], when the body has no
    [data] property; the declared return type is not checked. *)
Definition getRecommendations (req : Types.RecommendationRequest)
    : Eff S (option Types.RecommendationResponse) :=
  try_catch
    (response ← request (PostRecommendations req)
                  (fun b => post_recommendations b req);
     match data response with
     | None => throw TypeError
     | Some body => ret (reply_data body)
     end)
    (fun _ => throw (Error "Failed to fetch recommendations")).

End ApiService.

End Api.


(* ===================================================================== *)
(** * frontend/src/pages/RecommendationPage.tsx: state and handlers       *)
(* ===================================================================== *)

Module RecommendationPage.
Import JS PageTypes Api.

(** The six [useState] cells of the component. *)
Record State : Type := {
  query : string;
  recommendations : list Product;
  loading : bool;
  backendStatus : string;
  error : option string;
  generatingAI : gset string
}.

Definition setRecommendations (v : list Product) : Eff State unit :=
  modify (fun s =>
    {| query := query s; recommendations := v; loading := loading s;
       backendStatus := backendStatus s; error := error s;
       generatingAI := generatingAI s |}).

(** [setRecommendations((prev) => f prev)] *)
Definition updateRecommendations (f : list Product -> list Product) : Eff State unit :=
  modify (fun s =>
    {| query := query s; recommendations := f (recommendations s);
       loading := loading s; backendStatus := backendStatus s;
       error := error s; generatingAI := generatingAI s |}).

Definition setLoading (v : bool) : Eff State unit :=
  modify (fun s =>
    {| query := query s; recommendations := recommendations s; loading := v;
       backendStatus := backendStatus s; error := error s;
       generatingAI := generatingAI s |}).

Definition setBackendStatus (v : string) : Eff State unit :=
  modify (fun s =>
    {| query := query s; recommendations := recommendations s;
       loading := loading s; backendStatus := v; error := error s;
       generatingAI := generatingAI s |}).

Definition setError (v : option string) : Eff State unit :=
  modify (fun s =>
    {| query := query s; recommendations := recommendations s;
       loading := loading s; backendStatus := backendStatus s; error := v;
       generatingAI := generatingAI s |}).

(** [setGeneratingAI((prev) => f prev)] *)
Definition updateGeneratingAI (f : gset string -> gset string) : Eff State unit :=
  modify (fun s =>
    {| query := query s; recommendations := recommendations s;
       loading := loading s; backendStatus := backendStatus s;
       error := error s; generatingAI := f (generatingAI s) |}).

(** [x.toLowerCase().includes(q.toLowerCase())] *)
Definition includes_lower (x q : string) : bool :=
  includes (toLowerCase x) (toLowerCase q).

(** The callback of [allProducts.filter] in [handleSearch]. [||] evaluates
    its right operand only when the left one is false, so the material is
    read only for a product whose title and description do not match, and
    reading [toLowerCase] of a missing material throws. *)
Definition search_predicate (q : string) (product : Product) : Completion bool :=
  if includes_lower (title product) q then Return true
  else if includes_lower (description product) q then Return true
  else match material product with
       | Some m => Return (includes_lower m q)
       | None => Throw TypeError
       end.

Definition handleSearch : Eff State unit :=
  q ← gets query;
  if negb (truthy (trim q)) then ret tt
  else
    setLoading true;;
    setError None;;
    finally
      (try_catch
         (response ← getSampleProducts;
          allProducts ← match response with
                        | Some r => ret (or_else (products r) [])
                        | None => throw TypeError
                        end;
          filteredProducts ← lift (filterC (search_predicate q) allProducts);
          setRecommendations filteredProducts)
         (fun _ =>
            setError (Some "Failed to get recommendations. Please try again.")))
      (setLoading false).

(** The updater [(prev) => prev.map((p) => p.id === product.id
    ? { ...p, ai_description: response.ai_description } : p)] of
    [generateAIDescription]. [response.ai_description] is read for each
    product with the id; on a [null] reply that read throws. *)
Definition describe_products (product : Product)
    (response : option GeneratedDescription) (prev : list Product)
    : Completion (list Product) :=
  mapC (fun p =>
          if String.eqb (id p) (id product) then
            match response with
            | Some r => Return (with_ai_description p (gd_ai_description r))
            | None => Throw TypeError
            end
          else Return p)
       prev.

(** React runs a queued updater when it processes the update, which is
    after the handler has left its [try] statement: an exception of the
    updater is not caught by the handler. It ends the run, and the list is
    not updated. *)
Definition runUpdater (updater : list Product -> Completion (list Product))
    : Eff State unit :=
  fun _ s =>
    match updater (recommendations s) with
    | Return v =>
        (Return tt,
         {| query := query s; recommendations := v; loading := loading s;
            backendStatus := backendStatus s; error := error s;
            generatingAI := generatingAI s |},
         [])
    | Throw e => (Throw e, s, [])
    end.

(** [setRecommendations(updater)] in the [try] block only queues the
    updater ([queued]); it runs after the [finally] block. *)
Definition generateAIDescription (product : Product) : Eff State unit :=
  if truthy_opt (ai_description product) then ret tt
  else
    updateGeneratingAI (fun prev => {[ id product ]} ∪ prev);;
    queued ← finally
      (try_catch
         (response ← Api.generateAIDescription (id product) (product_data product);
          ret (Some (describe_products product response)))
         (fun _ => ret None))
      (updateGeneratingAI (fun prev => prev ∖ {[ id product ]}));
    match queued with
    | Some updater => runUpdater updater
    | None => ret tt
    end.

Definition loadSampleProducts : Eff State unit :=
  try_catch
    (response ← getSampleProducts;
     match response with
     | Some r => setRecommendations (or_else (products r) [])
     | None => throw TypeError
     end)
    (fun _ =>
       setError (Some "Failed to load products. Please check backend connection.")).

Definition testBackendConnection : Eff State unit :=
  try_catch
    (isHealthy ← healthCheck;
     if (isHealthy : bool) then
       setBackendStatus "connected";;
       loadSampleProducts
     else setBackendStatus "disconnected")
    (fun _ => setBackendStatus "disconnected").

(** The state of a freshly mounted component. *)
Definition initial : State :=
  {| query := ""; recommendations := []; loading := false;
     backendStatus := "checking"; error := None; generatingAI := ∅ |}.

End RecommendationPage.


(* ===================================================================== *)
(** * The retrieval pipeline behind [POST /api/v1/recommendations]        *)
(* ===================================================================== *)

(** The frontend declares the request and response of this endpoint
    ([Types.RecommendationRequest], [Types.RecommendationResponse]) and calls
    it ([Api.getRecommendations]); the service itself is backend code. Its
    components are modelled from the specification, sections 4.1 to 4.4 and
    7. The external encoders and the wall clock are parameters. A similarity
    score is an integer: the pipeline only compares scores, and every finite
    floating-point number is an integer multiple of the smallest one. *)

Module Retrieval.
Import JS.

(** Modelled from the spec: the error taxonomy of section 7. *)
Inductive Failure : Type :=
| InvalidInput
| UpstreamUnavailable
| NotFound.

(** Modelled from the spec: a call answers with a value or fails with one
    of the errors of section 7. *)
Inductive Outcome (A : Type) : Type :=
| Ok (a : A)
| Failed (f : Failure).
Arguments Ok {A} a.
Arguments Failed {A} f.

(** Modelled from the spec: a similarity score (see above for the choice of
    integers). *)
Definition Score : Type := Z.

(** Modelled from the spec: the Recommendation Result of section 3, an
    ordered sequence of (Product, similarity score) pairs plus the original
    query, the total-candidate count and the processing latency. *)
Record RecommendationResult : Type := {
  entries : list (Types.Product * Score);
  original_query : string;
  total_found : Z;
  latency : Z
}.

(** Modelled from the spec: "collapse whitespace" of section 4.1, every run
    of whitespace becomes one space. *)
Fixpoint collapse_whitespace (s : string) : string :=
  match s with
  | EmptyString => EmptyString
  | String c s' =>
      if isWhiteSpace c then
        match s' with
        | EmptyString => String " " EmptyString
        | String d _ =>
            if isWhiteSpace d then collapse_whitespace s'
            else String " " (collapse_whitespace s')
        end
      else String c (collapse_whitespace s')
  end.

(** Modelled from the spec: the input normalization of section 4.1
    (lowercase, collapse whitespace). *)
Definition normalize (text : string) : string :=
  collapse_whitespace (toLowerCase text).

Section Pipeline.

(** The vectors of the external encoder. *)
Context {Vector : Type}.

(** The external text encoder: [encoder n text] is the answer to the
    [n]-th attempt, [None] for a transient failure. *)
Variable encoder : nat -> string -> option Vector.

(** Cosine similarity of two vectors. *)
Variable cosine : Vector -> Vector -> Score.

(** The numeric value of a product's price string. *)
Variable price_of : Types.Product -> Z.

(** Which filters are malformed (section 7 does not say more). *)
Variable malformed : Types.Filters -> bool.

(** The oversample factor of section 4.4. *)
Variable oversample_factor : nat.

(** Modelled from the spec: [embed] of the Embedding Gateway (section 4.1).
    Empty input after trimming is [InvalidInput]; the delegate is retried
    once, then the call fails with [UpstreamUnavailable]. *)
Definition embed (text : string) : Outcome Vector :=
  if negb (truthy (trim text)) then Failed InvalidInput
  else
    match encoder 0 (normalize text) with
    | Some v => Ok v
    | None =>
        match encoder 1 (normalize text) with
        | Some v => Ok v
        | None => Failed UpstreamUnavailable
        end
    end.

(** Modelled from the spec: a (Product id, Vector, metadata) tuple of the
    Similarity Index (section 4.2). *)
Record Entry : Type := {
  e_id : string;
  e_vector : Vector;
  e_metadata : Types.Product
}.

(** Modelled from the spec: the Similarity Index, the tuples it stores. *)
Definition Index : Type := list Entry.

(** Modelled from the spec: [upsert] replaces any prior entry for the id. *)
Definition upsert (id : string) (v : Vector) (metadata : Types.Product)
    (idx : Index) : Index :=
  {| e_id := id; e_vector := v; e_metadata := metadata |}
  :: List.filter (fun e => negb (String.eqb (e_id e) id)) idx.

(** Modelled from the spec: deletion removes the id and its vector. *)
Definition delete (id : string) (idx : Index) : Index :=
  List.filter (fun e => negb (String.eqb (e_id e) id)) idx.

(** Modelled from the spec: "no duplicate ids" (section 4.2). *)
Definition well_formed (idx : Index) : Prop := NoDup (map e_id idx).

(** Modelled from the spec: the id of a tuple is the id of its Product
    ("(Product id, Vector, metadata)", section 4.2). *)
Definition keyed_by_product_id (idx : Index) : Prop :=
  Forall (fun e => e_id e = Types.id (e_metadata e)) idx.

(** Modelled from the spec: an answer of the index, an id with its score
    and the metadata stored with it. *)
Record Candidate : Type := {
  c_id : string;
  c_score : Score;
  c_metadata : Types.Product
}.

(** Modelled from the spec: the score of an entry is the cosine similarity
    of its vector and the query vector. *)
Definition score_entry (v : Vector) (e : Entry) : Candidate :=
  {| c_id := e_id e; c_score := cosine v (e_vector e);
     c_metadata := e_metadata e |}.

(** Modelled from the spec: the order of the answers of [query], descending
    score and, on equal scores, ascending product id (section 4.2). *)
Definition ranks_before (a b : Candidate) : Prop :=
  c_score b < c_score a
  \/ (c_score a = c_score b /\ String.le (c_id a) (c_id b)).

#[local] Instance ranks_before_dec : RelDecision ranks_before.
Proof. intros a b. unfold ranks_before. apply _. Defined.

(** Modelled from the spec: [query(vector, k)] of the Similarity Index
    (section 4.2): the [k] best entries in rank order, all of them when [k]
    exceeds the index size, none when [k] is [0]. *)
Definition query (idx : Index) (v : Vector) (k : nat) : list Candidate :=
  take k (merge_sort ranks_before (map (score_entry v) idx)).

(** Modelled from the spec: the conjunctive predicate of a Filter Criteria
    (sections 3 and 4.3): category intersection non-empty if categories are
    specified, price within the interval, brand and material membership. *)
Definition satisfies (fc : Types.Filters) (p : Types.Product) : bool :=
  match Types.f_categories fc with
  | None => true
  | Some cs => existsb (fun c => bool_decide (c ∈ cs)) (Types.categories p)
  end
  && match Types.f_price_range fc with
     | None => true
     | Some (lo, hi) => (lo <=? price_of p) && (price_of p <=? hi)
     end
  && match Types.f_brand fc with
     | None => true
     | Some bs => bool_decide (Types.brand p ∈ bs)
     end
  && match Types.f_material fc with
     | None => true
     | Some ms => bool_decide (Types.material p ∈ ms)
     end.

(** Modelled from the spec: the filters of a request are optional
    ([filters?]); without filters every product is admitted. *)
Definition admits (filters : option Types.Filters) (p : Types.Product) : bool :=
  match filters with
  | None => true
  | Some fc => satisfies fc p
  end.

(** Modelled from the spec: the Ranking & Filter Engine (section 4.3) drops
    the candidates that do not match and keeps the others as they come. *)
Definition filter_candidates (filters : option Types.Filters)
    (candidates : list Candidate) : list Candidate :=
  List.filter (fun c => admits filters (c_metadata c)) candidates.

(** Modelled from the spec: the engine's final answer for a requested
    result size [k], the first [k] matches. *)
Definition rank_and_filter (filters : option Types.Filters) (k : nat)
    (candidates : list Candidate) : list Candidate :=
  take k (filter_candidates filters candidates).

(** Modelled from the spec: "malformed filter" (section 7) for the optional
    filters of a request. *)
Definition malformed_filters (filters : option Types.Filters) : bool :=
  match filters with
  | None => false
  | Some fc => malformed fc
  end.

(** Modelled from the spec: [recommend(query, k, filters)] of the
    Recommendation Service (sections 4.4 and 7). [elapsed] is the wall-clock
    time the call took. Invalid input is rejected before the encoder is
    called. *)
Definition recommend (idx : Index) (text : string) (k : Z)
    (filters : option Types.Filters) (elapsed : Z) : Outcome RecommendationResult :=
  if negb (truthy (trim text)) then Failed InvalidInput
  else if k <=? 0 then Failed InvalidInput
  else if malformed_filters filters then Failed InvalidInput
  else
    match embed text with
    | Failed f => Failed f
    | Ok v =>
        let candidates := query idx v (Z.to_nat k * oversample_factor) in
        let matching := filter_candidates filters candidates in
        Ok {| entries :=
                map (fun c => (c_metadata c, c_score c))
                    (take (Z.to_nat k) matching);
              original_query := text;
              total_found := Z.of_nat (length matching);
              latency := elapsed |}
    end.

End Pipeline.

End Retrieval.


(* ===================================================================== *)
(** * Vocabulary of the statements                                        *)
(* ===================================================================== *)

Module Spec.
Import JS PageTypes Api RecommendationPage.

(** [q] occurs in [s] when both are lower-cased, which is how the code
    ignores case: the lower-cased [s] has the lower-cased [q] as a
    contiguous part. *)
Definition ci_substring (q s : string) : Prop :=
  exists pre post, toLowerCase s = pre +:+ toLowerCase q +:+ post.

(** The title, the description or the material of [p] contains [q]. *)
Definition matches_query (q : string) (p : Product) : Prop :=
  ci_substring q (title p)
  \/ ci_substring q (description p)
  \/ exists m, material p = Some m /\ ci_substring q m.

(** The value of the search callback where it completes normally. *)
Definition search_matches (q : string) (p : Product) : bool :=
  includes_lower (title p) q
  || includes_lower (description p) q
  || match material p with
     | Some m => includes_lower m q
     | None => false
     end.

(** Every character of [s] is whitespace. *)
Fixpoint all_whitespace (s : string) : bool :=
  match s with
  | EmptyString => true
  | String c s' => isWhiteSpace c && all_whitespace s'
  end.

(** A handler run reports a failure: it throws, or it stores an error
    message for the page to show. *)
Definition reports_failure {A} (run : Completion A * State * list Request) : Prop :=
  (exists e, run.1.1 = Throw e) \/ error run.1.2 <> None.

(** The state [handleSearch] leaves after a successful search that found
    [found]. *)
Definition searched (s : State) (found : list Product) : State :=
  {| query := query s; recommendations := found; loading := false;
     backendStatus := backendStatus s; error := None;
     generatingAI := generatingAI s |}.

(** The state [handleSearch] leaves after a search that failed. *)
Definition search_failed (s : State) : State :=
  {| query := query s; recommendations := recommendations s; loading := false;
     backendStatus := backendStatus s;
     error := Some "Failed to get recommendations. Please try again.";
     generatingAI := generatingAI s |}.

(** What the [try] block of [handleSearch] finds for the query [q]: the
    filtered products, or nothing when the request or the filter throws. *)
Definition search_outcome (b : Backend) (q : string) : option (list Product) :=
  match get_sample_products b with
  | Return response =>
      match data response with
      | Some body =>
          match filterC (search_predicate q) (or_else (products body) []) with
          | Return found => Some found
          | Throw _ => None
          end
      | None => None
      end
  | Throw _ => None
  end.

(** The request was rejected by axios, or it was answered with the body
    [null]. *)
Definition rejected_or_null {T} (c : Completion (AxiosResponse (option T))) : bool :=
  match c with
  | Return response =>
      match data response with
      | Some _ => false
      | None => true
      end
  | Throw _ => true
  end.

(** A list of scores that never increases from one entry to the next. *)
Definition non_increasing (scores : list Z) : Prop :=
  Sorted (fun a b => b <= a) scores.

(** The products a successful generation for [product] leaves in the
    store. *)
Definition described (product : Product) (text : option string)
    (shown : list Product) : list Product :=
  map (fun p =>
         if String.eqb (id p) (id product) then with_ai_description p text else p)
      shown.

(** Two answers of [recommend] agree on everything but the latency. *)
Definition same_answer (o o' : Retrieval.Outcome Retrieval.RecommendationResult)
    : Prop :=
  match o, o' with
  | Retrieval.Ok r, Retrieval.Ok r' =>
      Retrieval.entries r = Retrieval.entries r'
      /\ Retrieval.original_query r = Retrieval.original_query r'
      /\ Retrieval.total_found r = Retrieval.total_found r'
  | Retrieval.Failed f, Retrieval.Failed f' => f = f'
  | _, _ => False
  end.

End Spec.

(* ===================================================================== *)
(** * Sample data                                                         *)
(* ===================================================================== *)

Module Samples.
Import JS PageTypes Api RecommendationPage.

Definition product (i t d : string) (m a : option string) : Product :=
  {| id := i; title := t; brand := "Ikarus"; price := "$120.00";
     description := d; image := "https://example.test/" +:+ i +:+ ".jpg";
     categories := CategoryText "Home & Kitchen, Furniture";
     material := m; ai_description := a |}.

Definition red_sofa : Product :=
  product "p1" "Red Sofa" "A comfy two-seater" (Some "Leather") None.

Definition oak_chair : Product :=
  product "p2" "Chair" "Wooden chair" (Some "Oak") None.

(** A product without the optional [material]. *)
Definition desk_lamp : Product :=
  product "p3" "Lamp" "Desk lamp" None None.

Definition described_sofa : Product :=
  product "p1" "Red Sofa" "A comfy two-seater" (Some "Leather")
    (Some "A sofa to sink into.").

Definition sample_response (ps : list Product)
    : AxiosResponse (option SampleProducts) :=
  {| status := 200; data := Some {| products := Some ps |} |}.

Definition description_response (text : string)
    : AxiosResponse (option GeneratedDescription) :=
  {| status := 200; data := Some {| gd_ai_description := Some text |} |}.

(** A backend that is up, serves [ps] as sample products, describes every
    product with the same sentence and has no recommendation endpoint. *)
Definition backend (ps : list Product) : Backend :=
  {| get_health := Return {| status := 200; data := tt |};
     get_sample_products := Return (sample_response ps);
     post_generate_description := fun _ _ =>
       Return (description_response "A sofa to sink into.");
     post_recommendations := fun _ => Throw (AxiosError "Network Error") |}.

(** A backend that answers nothing. *)
Definition offline : Backend :=
  {| get_health := Throw (AxiosError "Network Error");
     get_sample_products := Throw (AxiosError "Network Error");
     post_generate_description := fun _ _ => Throw (AxiosError "Network Error");
     post_recommendations := fun _ => Throw (AxiosError "Network Error") |}.

(** The page with [q] typed into the search box and [shown] on display. *)
Definition page (q : string) (shown : list Product) : State :=
  {| query := q; recommendations := shown; loading := false;
     backendStatus := "connected"; error := None; generatingAI := ∅ |}.

(** Catalogue products, as [types/index.ts] declares them. *)
Definition catalog (i t b p m : string) (cs : list string) : Types.Product :=
  {| Types.id := i; Types.title := t; Types.brand := b; Types.price := p;
     Types.description := t; Types.images := []; Types.categories := cs;
     Types.material := m; Types.color := "Red"; Types.country_of_origin := "IN";
     Types.manufacturer := b; Types.package_dimensions := "";
     Types.uniq_id := i |}.

Definition sofa_a : Types.Product :=
  catalog "A" "red sofa" "Ikarus" "300" "Leather" ["Sofas"].

Definition sofa_b : Types.Product :=
  catalog "B" "blue sofa" "Ikarus" "250" "Fabric" ["Sofas"].

Definition chair_c : Types.Product :=
  catalog "C" "red chair" "Oakline" "80" "Oak" ["Chairs"].

(** A stub encoder with known vectors: a text is encoded by its length,
    and two vectors are the more similar the closer they are. *)
Definition stub_encoder (attempt : nat) (text : string) : option Z :=
  Some (Z.of_nat (String.length text)).

Definition stub_cosine (a b : Z) : Z := - Z.abs (a - b).

Definition stub_price (p : Types.Product) : Z :=
  if String.eqb (Types.price p) "300" then 300
  else if String.eqb (Types.price p) "250" then 250
  else 80.

Definition never_malformed (fc : Types.Filters) : bool := false.

(** The index of the three products; [sofa_a] and [sofa_b] are stored under
    the same vector, [sofa_b] first. *)
Definition sample_index : list (@Retrieval.Entry Z) :=
  [ {| Retrieval.e_id := "B"; Retrieval.e_vector := 8;
       Retrieval.e_metadata := sofa_b |};
    {| Retrieval.e_id := "A"; Retrieval.e_vector := 8;
       Retrieval.e_metadata := sofa_a |};
    {| Retrieval.e_id := "C"; Retrieval.e_vector := 9;
       Retrieval.e_metadata := chair_c |} ].

(** The same index with its first two entries stored the other way round. *)
Definition swapped_index : list (@Retrieval.Entry Z) :=
  [ {| Retrieval.e_id := "A"; Retrieval.e_vector := 8;
       Retrieval.e_metadata := sofa_a |};
    {| Retrieval.e_id := "B"; Retrieval.e_vector := 8;
       Retrieval.e_metadata := sofa_b |};
    {| Retrieval.e_id := "C"; Retrieval.e_vector := 9;
       Retrieval.e_metadata := chair_c |} ].

Definition only_chairs : Types.Filters :=
  {| Types.f_categories := Some ["Chairs"]; Types.f_price_range := None;
     Types.f_brand := None; Types.f_material := None |}.

Definition only_marble : Types.Filters :=
  {| Types.f_categories := None; Types.f_price_range := Some (0, 1000);
     Types.f_brand := None; Types.f_material := Some ["Marble"] |}.

(** The stub pipeline. *)
Definition stub_recommend :=
  Retrieval.recommend stub_encoder stub_cosine stub_price never_malformed 3.


(** A request for two recommendations. *)
Definition sofa_request : Types.RecommendationRequest :=
  {| Types.rq_query := "red sofa"; Types.rq_limit := Some 2;
     Types.rq_filters := None |}.

Definition no_recommendations : Types.RecommendationResponse :=
  {| Types.recommendations := []; Types.query := "red sofa";
     Types.total_found := 0; Types.processing_time := 3 |}.

(** A backend that answers the request for recommendations with status 200
    and a body that reports the failure of its embedding stage. *)
Definition degraded : Backend :=
  {| get_health := Return {| status := 200; data := tt |};
     get_sample_products := Return (sample_response []);
     post_generate_description := fun _ _ => Throw (AxiosError "Network Error");
     post_recommendations := fun _ =>
       Return {| status := 200;
                 data := Some {| reply_success := Some false;
                                 reply_data := Some no_recommendations;
                                 reply_message := None;
                                 reply_error := Some "embedding unavailable" |} |} |}.

End Samples.

(* ===================================================================== *)
(** * frontend/src/pages/RecommendationPage.tsx: what the page renders    *)
(* ===================================================================== *)

Module View.
Import JS PageTypes Api RecommendationPage.

(** [disabled={loading || !query.trim()}] of the "Find Products" button. *)
Definition searchDisabled (s : State) : bool :=
  loading s || negb (truthy (trim (query s))).

(** [recommendations.length > 0]: the grid of product cards is rendered. *)
Definition showsProducts (s : State) : bool :=
  negb (Nat.eqb (length (recommendations s)) 0).

(** [recommendations.length === 0 && !loading && query]: the
    "No recommendations found" message is rendered. *)
Definition showsNoResults (s : State) : bool :=
  Nat.eqb (length (recommendations s)) 0 && negb (loading s) && truthy (query s).

(** [error && <Alert severity="error">]: the error alert is rendered. *)
Definition showsError (s : State) : bool := truthy_opt (error s).

(** [product.ai_description ? description : button]: the card shows the
    generated text instead of the "Generate AI Description" button. *)
Definition showsDescription (p : Product) : bool := truthy_opt (ai_description p).

(** [disabled={generatingAI.has(product.id)}] of the generate button. *)
Definition generateDisabled (s : State) (p : Product) : bool :=
  bool_decide (id p ∈ generatingAI s).

(** [product.material || "Product"] in the image fallback. *)
Definition fallbackMaterial (p : Product) : string :=
  match material p with
  | Some m => if truthy m then m else "Product"
  | None => "Product"
  end.

(** [s.split(", ")]: [cur] is the piece being read. *)
Fixpoint split_comma_space (cur s : string) : list string :=
  match s with
  | EmptyString => [cur]
  | String c rest =>
      match rest with
      | String d rest' =>
          if Ascii.eqb c "," && Ascii.eqb d " "
          then cur :: split_comma_space EmptyString rest'
          else split_comma_space (cur +:+ String c EmptyString) rest
      | EmptyString => split_comma_space (cur +:+ String c EmptyString) rest
      end
  end.

(** [Array.isArray(product.categories) ? product.categories
     : product.categories.split(", ")] *)
Definition categoryList (c : Categories) : list string :=
  match c with
  | CategoryList l => l
  | CategoryText s => split_comma_space EmptyString s
  end.

(** The labels of the chips of a card: [.slice(0, 3)] and
    [label={category.trim()}]. *)
Definition chips (p : Product) : list string :=
  map trim (take 3 (categoryList (categories p))).

(** [l.join(", ")] on a non-empty array. *)
Fixpoint join_comma_space (l : list string) : string :=
  match l with
  | [] => EmptyString
  | [x] => x
  | x :: l' => x +:+ ", " +:+ join_comma_space l'
  end.

End View.

(* ===================================================================== *)
(** * frontend/src/services/api.ts: the product and analytics methods     *)
(* ===================================================================== *)

Module ProductsApi.
Import JS Api.

(** [SearchFilters] of [types/index.ts]. *)
Record SearchFilters : Type := {
  categories : option (list string);
  price_min : option Types.number;
  price_max : option Types.number;
  brands : option (list string);
  materials : option (list string);
  countries : option (list string)
}.

(** ["asc" | "desc"] *)
Inductive SortOrder : Type := asc | desc.

Definition sort_order_text (o : SortOrder) : string :=
  match o with asc => "asc" | desc => "desc" end.

(** [PaginationParams] of [types/index.ts]. *)
Record PaginationParams : Type := {
  page : Types.number;
  limit : Types.number;
  sort_by : option string;
  sort_order : option SortOrder
}.

(** A [URLSearchParams] object: the name-value pairs in the order of their
    [append]. *)
Definition URLSearchParams : Type := list (string * string).

Definition append (name value : string) (params : URLSearchParams) : URLSearchParams :=
  params ++ [(name, value)].

(** [values.forEach((v) => params.append(name, v))] *)
Definition append_each (name : string) (values : list string)
    (params : URLSearchParams) : URLSearchParams :=
  fold_left (fun acc v => append name v acc) values params.

(** [if (array) { array.forEach(...) }]: an array, also an empty one, is
    truthy; a missing property is not. *)
Definition append_array (name : string) (values : option (list string))
    (params : URLSearchParams) : URLSearchParams :=
  match values with
  | Some vs => append_each name vs params
  | None => params
  end.

(** [params.getAll(name)] *)
Definition getAll (name : string) (params : URLSearchParams) : list string :=
  map snd (List.filter (fun kv => String.eqb (fst kv) name) params).

Section Params.

(** [Number.prototype.toString] *)
Variable toString : Types.number -> string.

(** [if (x !== undefined) { params.append(name, x.toString()) }] *)
Definition append_number (name : string) (value : option Types.number)
    (params : URLSearchParams) : URLSearchParams :=
  match value with
  | Some x => append name (toString x) params
  | None => params
  end.

(** The [if (filters) { ... }] block of [getProducts] and
    [searchProducts]. *)
Definition append_filters (filters : option SearchFilters)
    (params : URLSearchParams) : URLSearchParams :=
  match filters with
  | None => params
  | Some f =>
      let params := append_array "categories" (categories f) params in
      let params := append_array "brands" (brands f) params in
      let params := append_array "materials" (materials f) params in
      let params := append_array "countries" (countries f) params in
      let params := append_number "price_min" (price_min f) params in
      append_number "price_max" (price_max f) params
  end.

(** The [if (pagination) { ... }] block: [sort_by] is appended when it is
    truthy, that is, present and not empty. *)
Definition append_pagination (pagination : option PaginationParams)
    (params : URLSearchParams) : URLSearchParams :=
  match pagination with
  | None => params
  | Some p =>
      let params := append "page" (toString (page p)) params in
      let params := append "limit" (toString (limit p)) params in
      let params :=
        match sort_by p with
        | Some by_ => if truthy by_ then append "sort_by" by_ params else params
        | None => params
        end in
      match sort_order p with
      | Some o => append "sort_order" (sort_order_text o) params
      | None => params
      end
  end.

(** The parameters [getProducts] puts in its URL. *)
Definition getProducts_params (filters : option SearchFilters)
    (pagination : option PaginationParams) : URLSearchParams :=
  append_pagination pagination (append_filters filters []).

(** The parameters [searchProducts] puts in its URL. *)
Definition searchProducts_params (query : string) (filters : option SearchFilters)
    (pagination : option PaginationParams) : URLSearchParams :=
  append_pagination pagination (append_filters filters (append "q" query [])).

End Params.

(** [try { m } catch (error) { h error }] on completions. *)
Definition try_catchC {A} (m : Completion A) (h : Exception -> Completion A)
    : Completion A :=
  match m with
  | Return a => Return a
  | Throw e => h e
  end.

(** [response.data.data]: a [TypeError] on the body [null], [undefined]
    (here [None]) when the body has no [data] property. *)
Definition data_data {T} (response : AxiosResponse (option (Reply T)))
    : Completion (option T) :=
  match data response with
  | None => Throw TypeError
  | Some body => Return (reply_data body)
  end.

Section Methods.
Context {T : Type}.

(** Each method takes the completion of its awaited axios call. *)
Variable answer : Completion (AxiosResponse (option (Reply T))).

Definition getAnalytics : Completion (option T) :=
  try_catchC (bindC (response_interceptor answer) data_data)
    (fun _ => Throw (Error "Failed to fetch analytics data")).

Definition getProducts : Completion (option T) :=
  try_catchC (bindC (response_interceptor answer) data_data)
    (fun _ => Throw (Error "Failed to fetch products")).

Definition getProduct : Completion (option T) :=
  try_catchC (bindC (response_interceptor answer) data_data)
    (fun _ => Throw (Error "Failed to fetch product")).

Definition searchProducts : Completion (option T) :=
  try_catchC (bindC (response_interceptor answer) data_data)
    (fun _ => Throw (Error "Failed to search products")).

End Methods.

(** [testBackend], [getAnalyticsOverview] and [getAnalyticsSummary]:
    [return response.data] and [throw error]. *)
Definition pass_through {T} (answer : Completion (AxiosResponse T)) : Completion T :=
  try_catchC (bindC (response_interceptor answer) (fun response => Return (data response)))
    (fun error => Throw error).

Definition testBackend {T} := @pass_through T.
Definition getAnalyticsOverview {T} := @pass_through T.
Definition getAnalyticsSummary {T} := @pass_through T.

End ProductsApi.

(* ===================================================================== *)
(** * AnalyticsPage (the component that follows ApiService in api.ts)     *)
(* ===================================================================== *)

Module AnalyticsPage.
Import JS Api.

Section Page.

(** The numbers of the dashboard are passed on as they come. *)
Context {number : Type}.

Record NameValue : Type := { name : string; value : number }.
Record RangeCount : Type := { range : string; count : number }.

(** The page's own [AnalyticsData], as the page fills it: the two numbers
    are copied from the reply unchecked and are [None] when the reply does
    not hold a number there. *)
Record AnalyticsData : Type := {
  totalProducts : option number;
  averagePrice : option number;
  topCategories : list NameValue;
  topBrands : list NameValue;
  priceDistribution : list RangeCount
}.

(** [response.data] of the overview, as far as the page reads it: a number
    is [None] when the property is missing or holds no number, an array is
    [None] when the property is missing or [null]. *)
Record OverviewData : Type := {
  total_products : option number;
  average_price : option number;
  top_categories : option (list NameValue);
  top_brands : option (list NameValue);
  price_distribution : option (list RangeCount)
}.

(** The body of [GET /api/v1/analytics/overview]: [status] is [None] when
    the body has no text there, [data] is [None] when it is missing or
    [null]. The empty body of a reply has neither. *)
Record Overview : Type := {
  status : option string;
  data : option OverviewData
}.

Record State : Type := {
  analyticsData : option AnalyticsData;
  loading : bool;
  error : option string
}.

(** [useState(null)], [useState(true)], [useState(null)] *)
Definition initial : State :=
  {| analyticsData := None; loading := true; error := None |}.

(** [response.status === "success"] *)
Definition is_success (status : option string) : bool :=
  match status with
  | Some text => String.eqb text "success"
  | None => false
  end.

(** The body of the [try] block once the overview has arrived: the new
    data and error, or an exception. *)
Definition read_overview (response : option Overview) (s : State)
    : Completion (option AnalyticsData * option string) :=
  match response with
  | None => Throw TypeError
  | Some r =>
      if is_success (status r) then
        match data r with
        | None => Throw TypeError
        | Some d =>
            Return
              (Some {| totalProducts := total_products d;
                       averagePrice := average_price d;
                       topCategories := or_else (top_categories d) [];
                       topBrands := or_else (top_brands d) [];
                       priceDistribution := or_else (price_distribution d) [] |},
               None)
        end
      else Return (analyticsData s, Some "Failed to load analytics data")
  end.

(** [fetchAnalytics] of the effect: [answer] is the completion of
    [await apiService.getAnalyticsOverview()]. *)
Definition fetchAnalytics (answer : Completion (option Overview)) (s : State) : State :=
  (* setLoading(true); setError(null); *)
  let s1 := {| analyticsData := analyticsData s; loading := true; error := None |} in
  let s2 :=
    match bindC answer (fun response => read_overview response s1) with
    | Return (d, e) => {| analyticsData := d; loading := loading s1; error := e |}
    | Throw _ =>
        {| analyticsData := analyticsData s1; loading := loading s1;
           error := Some "Failed to connect to analytics service" |}
    end in
  (* finally { setLoading(false) } *)
  {| analyticsData := analyticsData s2; loading := false; error := error s2 |}.

(** The four [return] statements of the component. *)
Inductive Screen : Type :=
| Spinner
| ErrorAlert (message : string)
| NoData
| Dashboard (d : AnalyticsData).

(** Which [return] statement the component reaches. *)
Definition render (s : State) : Screen :=
  if loading s then Spinner
  else
    match error s with
    | Some message =>
        if truthy message then ErrorAlert message
        else match analyticsData s with
             | None => NoData
             | Some d => Dashboard d
             end
    | None =>
        match analyticsData s with
        | None => NoData
        | Some d => Dashboard d
        end
    end.

(** What the component function returns, or the exception it throws: the
    dashboard evaluates [analyticsData.averagePrice.toFixed(2)], which
    throws when the average price is no number. *)
Definition paint (s : State) : Completion Screen :=
  match render s with
  | Dashboard d =>
      match averagePrice d with
      | Some _ => Return (Dashboard d)
      | None => Throw TypeError
      end
  | screen => Return screen
  end.

End Page.

(** [const COLORS = ["#0088FE", "#00C49F", "#FFBB28", "#FF8042"]] *)
Definition COLORS : list string := ["#0088FE"; "#00C49F"; "#FFBB28"; "#FF8042"].

(** [COLORS[index % COLORS.length]], the fill of the [index]-th cell. *)
Definition cellFill (index : nat) : option string :=
  COLORS !! (index mod length COLORS)%nat.

End AnalyticsPage.

(* ===================================================================== *)
(** * More vocabulary                                                     *)
(* ===================================================================== *)

Module Vocabulary.
Import JS PageTypes Api RecommendationPage.

(** A product on which the search callback throws: it has no material and
    neither its title nor its description contains the query. *)
Definition unsearchable (q : string) (p : Product) : Prop :=
  material p = None
  /\ includes_lower (title p) q = false
  /\ includes_lower (description p) q = false.

(** The health check of the backend succeeds with status 200. *)
Definition healthy (b : Backend) : bool :=
  match get_health b with
  | Return response => status response =? 200
  | Throw _ => false
  end.

(** The sample products the backend serves, if its request succeeds with a
    body other than [null]; a body without [products] serves none. *)
Definition served (b : Backend) : option (list Product) :=
  match get_sample_products b with
  | Return response =>
      match data response with
      | Some body => Some (or_else (products body) [])
      | None => None
      end
  | Throw _ => None
  end.

(** A product without its generated description. *)
Definition undescribed (p : Product) : Product := with_ai_description p None.

Definition with_status (s : State) (v : string) : State :=
  {| query := query s; recommendations := recommendations s;
     loading := loading s; backendStatus := v; error := error s;
     generatingAI := generatingAI s |}.

Definition with_products (s : State) (v : list Product) : State :=
  {| query := query s; recommendations := v; loading := loading s;
     backendStatus := backendStatus s; error := error s;
     generatingAI := generatingAI s |}.

Definition with_message (s : State) (v : string) : State :=
  {| query := query s; recommendations := recommendations s;
     loading := loading s; backendStatus := backendStatus s;
     error := Some v; generatingAI := generatingAI s |}.

(** The reply to the generate-description request for [product] has the
    body [null]. *)
Definition null_reply (b : Backend) (product : Product) : Prop :=
  exists response,
    post_generate_description b (id product) (product_data product)
    = Return response
    /\ data response = None.

Definition with_generating (s : State) (v : gset string) : State :=
  {| query := query s; recommendations := recommendations s;
     loading := loading s; backendStatus := backendStatus s;
     error := error s; generatingAI := v |}.

(** The pairs [params.append(name, v)] adds for the values [vs]. *)
Definition pairs (name : string) (vs : list string) : list (string * string) :=
  map (fun v => (name, v)) vs.

(** The value sent under ["sort_by"]: a present, non-empty text. *)
Definition sort_by_values (p : ProductsApi.PaginationParams) : list string :=
  match ProductsApi.sort_by p with
  | Some by_ => if truthy by_ then [by_] else []
  | None => []
  end.

(** The value sent under ["sort_order"]. *)
Definition sort_order_values (p : ProductsApi.PaginationParams) : list string :=
  match ProductsApi.sort_order p with
  | Some o => [ProductsApi.sort_order_text o]
  | None => []
  end.

(** The pair a present number adds. *)
Definition number_pair (toString : Z -> string) (name : string) (x : option Z)
    : list (string * string) :=
  match x with
  | Some n => [(name, toString n)]
  | None => []
  end.

(** The values [getAll] finds for an optional number. *)
Definition number_values (toString : Z -> string) (x : option Z) : list string :=
  match x with
  | Some n => [toString n]
  | None => []
  end.

(** The data the analytics page shows for an overview: arrays missing from
    the overview are empty. *)
Definition dashboard_data {number : Type} (d : @AnalyticsPage.OverviewData number)
    : @AnalyticsPage.AnalyticsData number :=
  {| AnalyticsPage.totalProducts := AnalyticsPage.total_products d;
     AnalyticsPage.averagePrice := AnalyticsPage.average_price d;
     AnalyticsPage.topCategories := or_else (AnalyticsPage.top_categories d) [];
     AnalyticsPage.topBrands := or_else (AnalyticsPage.top_brands d) [];
     AnalyticsPage.priceDistribution :=
       or_else (AnalyticsPage.price_distribution d) [] |}.

(** The analytics page with an error message and the data it had. *)
Definition analytics_failed {number : Type} (s : @AnalyticsPage.State number)
    (message : string) : @AnalyticsPage.State number :=
  {| AnalyticsPage.analyticsData := AnalyticsPage.analyticsData s;
     AnalyticsPage.loading := false;
     AnalyticsPage.error := Some message |}.

(** What axios answers to the request for the overview. *)
Definition overview_answer (number : Type) : Type :=
  Completion (AxiosResponse (option (@AnalyticsPage.Overview number))).

(** The overview cannot be read: the request was rejected, the body is
    [null], or the body says "success" and its [data] is missing or
    [null]. *)
Definition overview_unreadable {number : Type}
    (answer : Completion (AxiosResponse (option (@AnalyticsPage.Overview number))))
    : bool :=
  match answer with
  | Return response =>
      match data response with
      | Some o =>
          AnalyticsPage.is_success (AnalyticsPage.status o)
          && match AnalyticsPage.data o with Some _ => false | None => true end
      | None => true
      end
  | Throw _ => true
  end.

(** A "success" overview arrived whose data holds no number under
    [average_price]. *)
Definition average_price_missing {number : Type} (answer : overview_answer number)
    : bool :=
  match answer with
  | Return response =>
      match data response with
      | Some o =>
          AnalyticsPage.is_success (AnalyticsPage.status o)
          && match AnalyticsPage.data o with
             | Some d =>
                 match AnalyticsPage.average_price d with
                 | Some _ => false
                 | None => true
                 end
             | None => false
             end
      | None => false
      end
  | Throw _ => false
  end.

End Vocabulary.

(* ===================================================================== *)
(** * More sample data                                                    *)
(* ===================================================================== *)

Module MoreSamples.
Import JS PageTypes Api RecommendationPage Samples.

(** A backend whose health check answers 503. *)
Definition unhealthy : Backend :=
  {| get_health := Return {| status := 503; data := tt |};
     get_sample_products := Return (sample_response [red_sofa]);
     post_generate_description := fun _ _ => Throw (AxiosError "timeout");
     post_recommendations := fun _ => Throw (AxiosError "timeout") |}.

(** A backend whose sample-products reply has the body [null]. *)
Definition null_body : Backend :=
  {| get_health := Return {| status := 200; data := tt |};
     get_sample_products := Return {| status := 200; data := None |};
     post_generate_description := fun _ _ => Throw (AxiosError "timeout");
     post_recommendations := fun _ => Throw (AxiosError "timeout") |}.

(** A backend whose sample-products reply has an empty body, which has no
    [products] property. *)
Definition empty_body : Backend :=
  {| get_health := Return {| status := 200; data := tt |};
     get_sample_products :=
       Return {| status := 200; data := Some {| products := None |} |};
     post_generate_description := fun _ _ => Throw (AxiosError "timeout");
     post_recommendations := fun _ => Throw (AxiosError "timeout") |}.

(** The page while a description for ["p9"] is being generated. *)
Definition busy_page (q : string) (shown : list Product) : State :=
  {| query := q; recommendations := shown; loading := false;
     backendStatus := "connected"; error := None;
     generatingAI := {[ "p9" ]} |}.

Definition digit (n : Z) : string :=
  String (ascii_of_N (Z.to_N (48 + n))) EmptyString.

(** Decimal text of the numbers 0..99, enough for the samples. *)
Definition show_number (n : Z) : string :=
  if n <? 10 then digit n else digit (n / 10) +:+ digit (n mod 10).

(** [red_sofa] with its categories as an array. *)
Definition array_sofa : Product :=
  {| id := "p1"; title := "Red Sofa"; brand := "Ikarus"; price := "$120.00";
     description := "A comfy two-seater";
     image := "https://example.test/p1.jpg";
     categories := CategoryList ["Home & Kitchen"; "Furniture"];
     material := Some "Leather"; ai_description := None |}.

Definition sofa_filters : ProductsApi.SearchFilters :=
  {| ProductsApi.categories := Some ["Sofas"; "Chairs"];
     ProductsApi.price_min := Some 0;
     ProductsApi.price_max := None;
     ProductsApi.brands := Some [];
     ProductsApi.materials := None;
     ProductsApi.countries := Some ["IN"] |}.

Definition first_page : ProductsApi.PaginationParams :=
  {| ProductsApi.page := 1; ProductsApi.limit := 20;
     ProductsApi.sort_by := Some "price";
     ProductsApi.sort_order := Some ProductsApi.desc |}.

Definition overview_ok : @AnalyticsPage.Overview Z :=
  {| AnalyticsPage.status := Some "success";
     AnalyticsPage.data :=
       Some {| AnalyticsPage.total_products := Some 312;
               AnalyticsPage.average_price := Some 64;
               AnalyticsPage.top_categories := None;
               AnalyticsPage.top_brands := Some [];
               AnalyticsPage.price_distribution := None |} |}.

Definition overview_data : @AnalyticsPage.OverviewData Z :=
  {| AnalyticsPage.total_products := Some 312;
     AnalyticsPage.average_price := Some 64;
     AnalyticsPage.top_categories := None;
     AnalyticsPage.top_brands := Some [];
     AnalyticsPage.price_distribution := None |}.

(** The analytics page showing data loaded earlier. *)
Definition loaded_analytics : @AnalyticsPage.State Z :=
  {| AnalyticsPage.analyticsData := Some (Vocabulary.dashboard_data overview_data);
     AnalyticsPage.loading := false;
     AnalyticsPage.error := None |}.

(** A "success" overview whose data holds no average price. *)
Definition overview_without_average : @AnalyticsPage.Overview Z :=
  {| AnalyticsPage.status := Some "success";
     AnalyticsPage.data :=
       Some {| AnalyticsPage.total_products := Some 312;
               AnalyticsPage.average_price := None;
               AnalyticsPage.top_categories := None;
               AnalyticsPage.top_brands := None;
               AnalyticsPage.price_distribution := None |} |}.

(** A backend whose generate-description reply has the body [null]. *)
Definition null_describer : Backend :=
  {| get_health := Return {| status := 200; data := tt |};
     get_sample_products := Return (sample_response [red_sofa]);
     post_generate_description := fun _ _ =>
       Return {| status := 200; data := None |};
     post_recommendations := fun _ => Throw (AxiosError "timeout") |}.

Definition overview_error : @AnalyticsPage.Overview Z :=
  {| AnalyticsPage.status := Some "error"; AnalyticsPage.data := None |}.

(** The empty body of a reply, as the page reads it. *)
Definition overview_empty : @AnalyticsPage.Overview Z :=
  {| AnalyticsPage.status := None; AnalyticsPage.data := None |}.

End MoreSamples.

(* ===================================================================== *)
(** * JavaScript strings                                                  *)
(* ===================================================================== *)

Section StringFacts.
Import JS.

#[local] Arguments String.append !_ _ / : simpl nomatch.

Lemma append_assoc (a b c : string) : (a +:+ b) +:+ c = a +:+ b +:+ c.
Proof. induction a as [|x a IH]; simpl; [reflexivity | f_equal; exact IH]. Qed.

Lemma append_empty_r (a : string) : a +:+ "" = a.
Proof. induction a as [|x a IH]; simpl; [reflexivity | f_equal; exact IH]. Qed.

Lemma startsWith_spec (s p : string) :
  startsWith s p = true <-> exists post, s = p +:+ post.
Proof.
  revert s. induction p as [|b p IH]; intros s; simpl.
  - split; [intros _; now exists s | reflexivity].
  - destruct s as [|a s].
    + split; [discriminate | intros [post H]; discriminate].
    + rewrite andb_true_iff, Ascii.eqb_eq, IH. split.
      * intros [-> [post ->]]. now exists post.
      * intros [post H]. injection H as -> ->. eauto.
Qed.

(** [includes] decides whether [p] is a contiguous part of [s]. *)
Lemma includes_spec (s p : string) :
  includes s p = true <-> exists pre post, s = pre +:+ p +:+ post.
Proof.
  induction s as [|a s IH].
  - simpl. rewrite orb_false_r, startsWith_spec. split.
    + intros [post H]. exists "", post. exact H.
    + intros (pre & post & H). destruct pre; simpl in H; [eauto | discriminate].
  - cbn [includes]. rewrite orb_true_iff, IH, startsWith_spec. split.
    + intros [[post H] | (pre & post & H)].
      * exists "", post. exact H.
      * exists (String a pre), post. simpl. now rewrite H.
    + intros (pre & post & H). destruct pre as [|c pre]; simpl in H.
      * left. eauto.
      * right. injection H as _ H. eauto.
Qed.

(** The test of the search callback, [x.toLowerCase().includes(
    q.toLowerCase())], finds the lower-cased query as a contiguous part of
    the lower-cased text. *)
Lemma includes_lower_spec (s q : string) :
  RecommendationPage.includes_lower s q = true <-> Spec.ci_substring q s.
Proof.
  unfold RecommendationPage.includes_lower, Spec.ci_substring.
  apply includes_spec.
Qed.

Lemma trimStart_empty (s : string) :
  trimStart s = "" <-> Spec.all_whitespace s = true.
Proof.
  induction s as [|c s IH]; simpl; [tauto|].
  destruct (isWhiteSpace c); simpl; [exact IH|].
  split; discriminate.
Qed.

Lemma trimEnd_empty (s : string) :
  trimEnd s = "" <-> Spec.all_whitespace s = true.
Proof.
  induction s as [|c s IH]; simpl; [tauto|].
  destruct (trimEnd s) eqn:E.
  - destruct (isWhiteSpace c); simpl.
    + split; intros _; [now apply IH | reflexivity].
    + split; discriminate.
  - rewrite andb_true_iff. split; [discriminate|].
    intros [_ H]. apply IH in H. discriminate.
Qed.

Lemma trimStart_unchanged (s : string) :
  Spec.all_whitespace s = false -> Spec.all_whitespace (trimStart s) = false.
Proof.
  induction s as [|c s IH]; simpl; [auto|].
  destruct (isWhiteSpace c) eqn:E; simpl; [auto|].
  intros _. now rewrite E.
Qed.

(** [!s.trim()] holds exactly for the strings made of whitespace only. *)
Lemma trim_falsy (s : string) :
  truthy (trim s) = false <-> Spec.all_whitespace s = true.
Proof.
  unfold trim. split.
  - intros H. destruct (trimEnd (trimStart s)) eqn:E; [|discriminate].
    apply trimEnd_empty in E.
    destruct (Spec.all_whitespace s) eqn:W; [reflexivity|].
    apply trimStart_unchanged in W. congruence.
  - intros H. apply trimStart_empty in H. now rewrite H.
Qed.

End StringFacts.

(* ===================================================================== *)
(** * handleSearch                                                        *)
(* ===================================================================== *)

(** Unfold a handler down to the completions of the backend. *)
Ltac run_eff :=
  unfold RecommendationPage.handleSearch,
    RecommendationPage.generateAIDescription,
    Api.getSampleProducts, Api.generateAIDescription, Api.getRecommendations,
    Api.healthCheck, RecommendationPage.setLoading,
    RecommendationPage.setError, RecommendationPage.setRecommendations,
    RecommendationPage.updateRecommendations,
    RecommendationPage.updateGeneratingAI, RecommendationPage.runUpdater,
    Api.finally, Api.try_catch,
    Api.request, Api.response_interceptor, Api.lift, Api.gets, Api.modify,
    Api.throw, Api.ret, mbind, Api.Eff_bind, Api.bind, mret, Api.Eff_ret;
  simpl.

Section Search.
Import JS PageTypes Api RecommendationPage Spec.

#[local] Arguments String.append !_ _ / : simpl nomatch.

Lemma search_predicate_value (q : string) (p : Product) (v : bool) :
  search_predicate q p = Return v -> v = search_matches q p.
Proof.
  unfold search_predicate, search_matches.
  destruct (includes_lower (title p) q); [now intros [= <-]|].
  destruct (includes_lower (description p) q); [now intros [= <-]|].
  destruct (material p); [now intros [= <-] | discriminate].
Qed.

Lemma search_predicate_material (q : string) (p : Product) :
  material p <> None -> search_predicate q p = Return (search_matches q p).
Proof.
  unfold search_predicate, search_matches. intros H.
  destruct (includes_lower (title p) q); [reflexivity|].
  destruct (includes_lower (description p) q); [reflexivity|].
  destruct (material p); [reflexivity | contradiction].
Qed.

(** Where the callback never throws, [filterC] is the plain filter. *)
Lemma filterC_material (q : string) (ps : list Product) :
  Forall (fun p => material p <> None) ps ->
  filterC (search_predicate q) ps = Return (List.filter (search_matches q) ps).
Proof.
  induction 1 as [|p ps Hp _ IH]; [reflexivity|].
  simpl. rewrite (search_predicate_material _ _ Hp). simpl. rewrite IH. simpl.
  now destruct (search_matches q p).
Qed.

Lemma filterC_returns (q : string) (ps out : list Product) :
  filterC (search_predicate q) ps = Return out ->
  out = List.filter (search_matches q) ps.
Proof.
  revert out. induction ps as [|p ps IH]; simpl; intros out.
  - now intros [= <-].
  - destruct (search_predicate q p) as [v|] eqn:Ev; simpl; [|discriminate].
    destruct (filterC (search_predicate q) ps) as [rest|]; simpl; [|discriminate].
    intros [= <-]. rewrite <- (search_predicate_value _ _ _ Ev), (IH rest eq_refl).
    reflexivity.
Qed.

Lemma search_matches_spec (q : string) (p : Product) :
  search_matches q p = true <-> matches_query q p.
Proof.
  unfold search_matches, matches_query.
  rewrite !orb_true_iff, !includes_lower_spec.
  destruct (material p) as [m|].
  - rewrite includes_lower_spec. split.
    + intros [[H | H] | H]; eauto.
    + intros [H | [H | (m' & [= <-] & H)]]; auto.
  - split.
    + intros [[H | H] | H]; [auto | auto | discriminate].
    + intros [H | [H | (m' & [=] & _)]]; auto.
Qed.

(** The guard of [handleSearch]: a query that is empty after trimming ends
    the handler before anything else happens. *)
Lemma handleSearch_guard (b : Backend) (s : State) :
  truthy (trim (query s)) = false ->
  handleSearch b s = (Return tt, s, []).
Proof. intros H. run_eff. rewrite H. reflexivity. Qed.

(** A search whose request succeeds and whose filter completes. *)
Lemma handleSearch_success (b : Backend) (s : State)
    (response : AxiosResponse (option SampleProducts)) (body : SampleProducts) :
  truthy (trim (query s)) = true ->
  get_sample_products b = Return response ->
  data response = Some body ->
  Forall (fun p => material p <> None) (or_else (products body) []) ->
  handleSearch b s =
    (Return tt,
     searched s (List.filter (search_matches (query s)) (or_else (products body) [])),
     [GetSampleProducts]).
Proof.
  intros Hq Hget Hbody Hmat. run_eff. rewrite Hq. simpl. rewrite Hget. simpl.
  rewrite Hbody. simpl. rewrite (filterC_material _ _ Hmat). reflexivity.
Qed.

(** Every run of [handleSearch]. *)
Lemma handleSearch_run (b : Backend) (s : State) :
  handleSearch b s =
    if truthy (trim (query s)) then
      (Return tt,
       match search_outcome b (query s) with
       | Some found => searched s found
       | None => search_failed s
       end,
       [GetSampleProducts])
    else (Return tt, s, []).
Proof.
  run_eff. unfold search_outcome.
  destruct (truthy (trim (query s))); simpl; [|reflexivity].
  destruct (get_sample_products b) as [response|]; simpl; [|reflexivity].
  destruct (data response) as [body|]; simpl; [|reflexivity].
  destruct (filterC (search_predicate (query s)) (or_else (products body) []));
    reflexivity.
Qed.

(** Searching again with the same query against the same backend changes
    nothing: the same products are shown in the same order. *)
Lemma handleSearch_idempotent (b : Backend) (s : State) :
  (handleSearch b (handleSearch b s).1.2).1.2 = (handleSearch b s).1.2.
Proof.
  rewrite (handleSearch_run b s).
  destruct (truthy (trim (query s))) eqn:Hq; simpl.
  - rewrite handleSearch_run.
    destruct (search_outcome b (query s)) as [found|] eqn:Ho; simpl;
      rewrite Hq, Ho; reflexivity.
  - rewrite handleSearch_run, Hq. reflexivity.
Qed.

(** After a search that reports no error, every product on display
    matches the query. *)
Lemma handleSearch_shows_matches (b : Backend) (s : State) :
  truthy (trim (query s)) = true ->
  error (handleSearch b s).1.2 = None ->
  Forall (matches_query (query s)) (recommendations (handleSearch b s).1.2).
Proof.
  intros Hq. rewrite handleSearch_run, Hq. unfold search_outcome.
  destruct (get_sample_products b) as [response|]; simpl; [|discriminate].
  destruct (data response) as [body|]; simpl; [|discriminate].
  destruct (filterC _ _) as [found|] eqn:Hf; simpl; [|discriminate].
  intros _. apply filterC_returns in Hf as ->.
  apply Forall_forall. intros p Hp.
  apply list_elem_of_In, filter_In in Hp. now apply search_matches_spec.
Qed.

(** A search that meets a product without material, whose title and
    description do not match: the callback throws, the handler shows its
    error message and keeps the list on display. *)
Example handleSearch_missing_material :
  handleSearch (Samples.backend [Samples.desk_lamp])
               (Samples.page "sofa" [Samples.red_sofa])
  = (Return tt,
     {| query := "sofa"; recommendations := [Samples.red_sofa];
        loading := false; backendStatus := "connected";
        error := Some "Failed to get recommendations. Please try again.";
        generatingAI := ∅ |},
     [GetSampleProducts]).
Proof. reflexivity. Qed.

End Search.

Section SearchClaims.
Import JS PageTypes Api RecommendationPage Spec Samples.

(** C1, as stated, fails: the query [" "] is not empty, the sample product
    [red_sofa] contains it in its title, and yet the search does not return
    [red_sofa]; the guard on the trimmed query ends the handler first. *)
Lemma handleSearch_blank_query_counterexample :
  let s := page " " [] in
  let b := backend [red_sofa; oak_chair] in
  query s <> ""
  /\ In red_sofa [red_sofa; oak_chair]
  /\ matches_query (query s) red_sofa
  /\ ~ In red_sofa (recommendations (handleSearch b s).1.2).
Proof.
  repeat split.
  - discriminate.
  - now left.
  - apply search_matches_spec. vm_compute. reflexivity.
  - vm_compute. tauto.
Qed.

(** C1, amended: for every query that is not empty after trimming, when the
    sample-products request succeeds and every product it returns has a
    material, [handleSearch] shows exactly the returned products whose
    lower-cased title, description or material has the lower-cased query as
    a contiguous part, in the order returned; it sends that one request,
    clears the error and the loading flag. *)
Theorem handleSearch_shows_matching_products (b : Backend) (s : State)
    (response : AxiosResponse (option SampleProducts)) (body : SampleProducts) :
  truthy (trim (query s)) = true ->
  get_sample_products b = Return response ->
  data response = Some body ->
  Forall (fun p => material p <> None) (or_else (products body) []) ->
  handleSearch b s =
    (Return tt,
     searched s (List.filter (search_matches (query s)) (or_else (products body) [])),
     [GetSampleProducts])
  /\ (forall p, search_matches (query s) p = true <-> matches_query (query s) p).
Proof.
  intros Hq Hget Hbody Hmat. split.
  - now apply (handleSearch_success b s response body).
  - intros p. apply search_matches_spec.
Qed.

Lemma handleSearch_shows_matching_products_witness :
  handleSearch (backend [red_sofa; oak_chair]) (page "SOFA" []) =
    (Return tt, searched (page "SOFA" []) [red_sofa], [GetSampleProducts])
  /\ (forall p, search_matches "SOFA" p = true <-> matches_query "SOFA" p).
Proof.
  apply (handleSearch_shows_matching_products
           (backend [red_sofa; oak_chair]) (page "SOFA" [])
           (sample_response [red_sofa; oak_chair])
           {| products := Some [red_sofa; oak_chair] |}).
  - reflexivity.
  - reflexivity.
  - reflexivity.
  - repeat constructor; discriminate.
Defined.

(** C5, as stated, fails: on a query that is empty after trimming the
    handler neither throws nor stores an error. *)
Lemma handleSearch_blank_query_reports_nothing :
  trim (query (page "   " [])) = ""
  /\ ~ reports_failure (handleSearch (backend [red_sofa]) (page "   " [])).
Proof.
  split; [reflexivity|].
  intros [[e H] | H]; [discriminate H | apply H; reflexivity].
Qed.

(** C5, amended: for every query that is empty after trimming,
    [handleSearch] returns at once: it sends no request, leaves the state as
    it is and reports no error. *)
Theorem handleSearch_rejects_blank_query (b : Backend) (s : State) :
  trim (query s) = "" ->
  handleSearch b s = (Return tt, s, []).
Proof.
  intros H. run_eff. rewrite H. simpl. reflexivity.
Qed.

Lemma handleSearch_rejects_blank_query_witness :
  handleSearch offline (page "   " [red_sofa]) =
    (Return tt, page "   " [red_sofa], []).
Proof.
  apply (handleSearch_rejects_blank_query offline (page "   " [red_sofa])).
  reflexivity.
Defined.

End SearchClaims.

(* ===================================================================== *)
(** * generateAIDescription                                               *)
(* ===================================================================== *)

Section Descriptions.
Import JS PageTypes Api RecommendationPage Spec Vocabulary Samples.

(** The guard of [generateAIDescription]. *)
Lemma generateAIDescription_guard (b : Backend) (s : State) (product : Product) :
  truthy_opt (ai_description product) = true ->
  RecommendationPage.generateAIDescription product b s = (Return tt, s, []).
Proof. intros H. run_eff. rewrite H. reflexivity. Qed.

(** The updater on a reply with a body: the text of the reply is stored
    under every product with the id. *)
Lemma describe_products_reply (product : Product) (r : GeneratedDescription)
    (shown : list Product) :
  describe_products product (Some r) shown
  = Return (described product (gd_ai_description r) shown).
Proof.
  unfold describe_products, described.
  induction shown as [|p shown IH]; [reflexivity|].
  cbn [mapC map]. rewrite IH.
  destruct (String.eqb (id p) (id product)); reflexivity.
Qed.

(** The updater on the reply [null]: it throws as soon as it meets a
    product with the id, and is the identity when there is none. *)
Lemma describe_products_null (product : Product) (shown : list Product) :
  describe_products product None shown
  = if existsb (fun p => String.eqb (id p) (id product)) shown
    then Throw TypeError else Return shown.
Proof.
  unfold describe_products.
  induction shown as [|p shown IH]; [reflexivity|].
  cbn [mapC existsb]. rewrite IH.
  destruct (String.eqb (id p) (id product)); [reflexivity|].
  cbn [orb bindC].
  destruct (existsb (fun p0 => String.eqb (id p0) (id product)) shown);
    reflexivity.
Qed.

(** Every run of [generateAIDescription] that passes the guard. *)
Lemma generateAIDescription_run (b : Backend) (s : State) (product : Product) :
  truthy_opt (ai_description product) = false ->
  RecommendationPage.generateAIDescription product b s =
    let released :=
      with_generating s (({[ id product ]} ∪ generatingAI s) ∖ {[ id product ]}) in
    let sent := [PostGenerateDescription (id product) (product_data product)] in
    match post_generate_description b (id product) (product_data product) with
    | Return response =>
        match describe_products product (data response) (recommendations s) with
        | Return shown => (Return tt, with_products released shown, sent)
        | Throw e => (Throw e, released, sent)
        end
    | Throw _ => (Return tt, released, sent)
    end.
Proof.
  intros Hd. run_eff. rewrite Hd. simpl.
  destruct (post_generate_description b (id product) (product_data product))
    as [response|]; simpl; [|reflexivity].
  destruct (describe_products product (data response) (recommendations s));
    reflexivity.
Qed.

(** A first generation whose reply has a body sends one request and stores
    the text of the reply under every product with the id. *)
Lemma generateAIDescription_first (b : Backend) (s : State) (product : Product)
    (response : AxiosResponse (option GeneratedDescription))
    (r : GeneratedDescription) :
  truthy_opt (ai_description product) = false ->
  post_generate_description b (id product) (product_data product) = Return response ->
  data response = Some r ->
  RecommendationPage.generateAIDescription product b s =
    (Return tt,
     with_products
       (with_generating s
          (({[ id product ]} ∪ generatingAI s) ∖ {[ id product ]}))
       (described product (gd_ai_description r) (recommendations s)),
     [PostGenerateDescription (id product) (product_data product)]).
Proof.
  intros Hd Hpost Hr. rewrite (generateAIDescription_run b s product Hd), Hpost.
  simpl. rewrite Hr, describe_products_reply. reflexivity.
Qed.

Lemma described_lookup (product p' : Product) (text : option string)
    (shown : list Product) :
  In p' (described product text shown) -> id p' = id product ->
  ai_description p' = text.
Proof.
  unfold described. rewrite in_map_iff. intros (p & <- & _).
  destruct (String.eqb_spec (id p) (id product)) as [E | E]; simpl; [reflexivity|].
  intros H. contradiction.
Qed.

Lemma described_undescribed (product : Product) (text : option string)
    (shown : list Product) :
  map undescribed (described product text shown) = map undescribed shown.
Proof.
  unfold described. rewrite map_map. apply map_ext. intros p.
  destruct (String.eqb (id p) (id product)); reflexivity.
Qed.

Lemma described_other (product : Product) (text : option string)
    (shown : list Product) (i : nat) (p : Product) :
  shown !! i = Some p -> id p <> id product ->
  described product text shown !! i = Some p.
Proof.
  intros Hi Hne. unfold described.
  change (map ?f shown) with (f <$> shown). rewrite list_lookup_fmap, Hi. simpl.
  apply String.eqb_neq in Hne. now rewrite Hne.
Qed.

(** The guard tests the truthiness of the text: a product whose stored
    description is the empty string is sent to the backend again. *)
Example generateAIDescription_empty_text :
  let p := product "p1" "Red Sofa" "A comfy two-seater" (Some "Leather") (Some "") in
  (RecommendationPage.generateAIDescription p (backend [p]) (page "" [p])).2
  = [PostGenerateDescription "p1" (product_data p)].
Proof. reflexivity. Qed.

(** C8, as stated, fails: nothing is kept per product id. A description is
    generated for the product ["p1"] on display and stored on it; a search
    then replaces the display by the products of the backend, which carry
    no generated description; generating for the product ["p1"] on display
    sends the request a second time and changes the stored products. *)
Lemma generateAIDescription_repeats_after_search :
  let b := backend [red_sofa; oak_chair] in
  let s0 := page "sofa" [red_sofa] in
  let first := RecommendationPage.generateAIDescription red_sofa b s0 in
  let searched := handleSearch b first.1.2 in
  let second := RecommendationPage.generateAIDescription red_sofa b searched.1.2 in
  first.2 = [PostGenerateDescription "p1" (product_data red_sofa)]
  /\ recommendations first.1.2 = [described_sofa]
  /\ recommendations searched.1.2 = [red_sofa]
  /\ id red_sofa = id described_sofa
  /\ second.2 = [PostGenerateDescription "p1" (product_data red_sofa)]
  /\ recommendations second.1.2 <> recommendations searched.1.2.
Proof. vm_compute. repeat split; discriminate. Qed.

(** C8, amended: a generated description is kept on the products on
    display, and the call is skipped by the truthiness of the description
    of the product passed in. A call sends no request exactly when that
    product has a non-empty description, and then it changes nothing. A
    first call whose reply carries a non-empty text sends one request and
    stores the text under every product on display with the id; for each of
    these a further call, against any backend, sends nothing and changes
    nothing. *)
Theorem generateAIDescription_skips_described (b b' : Backend) (s : State)
    (product : Product) :
  ((RecommendationPage.generateAIDescription product b s).2 = []
   <-> truthy_opt (ai_description product) = true)
  /\ (truthy_opt (ai_description product) = true ->
      RecommendationPage.generateAIDescription product b s = (Return tt, s, []))
  /\ (forall response r text,
        truthy_opt (ai_description product) = false ->
        post_generate_description b (id product) (product_data product)
          = Return response ->
        data response = Some r ->
        gd_ai_description r = Some text ->
        truthy text = true ->
        let run := RecommendationPage.generateAIDescription product b s in
        run.1.1 = Return tt
        /\ run.2 = [PostGenerateDescription (id product) (product_data product)]
        /\ recommendations run.1.2
           = described product (Some text) (recommendations s)
        /\ (forall p', In p' (recommendations run.1.2) -> id p' = id product ->
              ai_description p' = Some text
              /\ RecommendationPage.generateAIDescription p' b' run.1.2
                 = (Return tt, run.1.2, []))).
Proof.
  split; [|split].
  - destruct (truthy_opt (ai_description product)) eqn:Hd.
    + rewrite (generateAIDescription_guard b s product Hd). simpl. tauto.
    + rewrite (generateAIDescription_run b s product Hd). simpl.
      destruct (post_generate_description b (id product) (product_data product))
        as [response|]; [|split; discriminate].
      destruct (describe_products product (data response) (recommendations s));
        split; discriminate.
  - apply generateAIDescription_guard.
  - intros response r text Hd Hpost Hr Htext Htruthy run. subst run.
    rewrite (generateAIDescription_first b s product response r Hd Hpost Hr).
    rewrite Htext. simpl. repeat split.
    + now apply (described_lookup product p' (Some text) (recommendations s)).
    + apply generateAIDescription_guard.
      rewrite (described_lookup product p' (Some text) (recommendations s))
        by assumption.
      exact Htruthy.
Qed.

Lemma generateAIDescription_skips_described_witness :
  RecommendationPage.generateAIDescription described_sofa offline
      (page "sofa" [described_sofa; oak_chair])
    = (Return tt, page "sofa" [described_sofa; oak_chair], [])
  /\ (let run :=
        RecommendationPage.generateAIDescription red_sofa
          (backend [red_sofa]) (page "sofa" [red_sofa; oak_chair]) in
      run.1.1 = Return tt
      /\ run.2 = [PostGenerateDescription (id red_sofa) (product_data red_sofa)]
      /\ recommendations run.1.2
         = described red_sofa (Some "A sofa to sink into.")
             (recommendations (page "sofa" [red_sofa; oak_chair]))
      /\ (forall p', In p' (recommendations run.1.2) -> id p' = id red_sofa ->
            ai_description p' = Some "A sofa to sink into."
            /\ RecommendationPage.generateAIDescription p' offline run.1.2
               = (Return tt, run.1.2, []))).
Proof.
  split.
  - apply (proj1 (proj2 (generateAIDescription_skips_described
             (backend [red_sofa]) offline
             (page "sofa" [described_sofa; oak_chair]) described_sofa))).
    reflexivity.
  - apply (proj2 (proj2 (generateAIDescription_skips_described
             (backend [red_sofa]) offline
             (page "sofa" [red_sofa; oak_chair]) red_sofa))
             (description_response "A sofa to sink into.")
             {| gd_ai_description := Some "A sofa to sink into." |}
             "A sofa to sink into."); reflexivity.
Defined.

End Descriptions.

(* ===================================================================== *)
(** * ApiService                                                          *)
(* ===================================================================== *)

Section Service.
Import JS Api Spec.
Context {S : Type}.

(** C10: [healthCheck] always completes normally with a boolean, after one
    request to [/health] and without touching the state; the boolean is
    [true] exactly when the request succeeded with status 200. *)
Theorem healthCheck_total (b : Backend) (s : S) :
  exists healthy : bool,
    healthCheck b s = (Return healthy, s, [GetHealth])
    /\ (healthy = true <->
        exists response, get_health b = Return response /\ status response = 200).
Proof.
  run_eff. destruct (get_health b) as [response | e]; simpl.
  - exists (status response =? 200). split; [reflexivity|].
    rewrite Z.eqb_eq. split.
    + intros H. exists response. auto.
    + intros (r & [= <-] & H). exact H.
  - exists false. split; [reflexivity|].
    split; [discriminate | intros (r & H & _); discriminate].
Qed.

(** C9, amended: [getRecommendations] sends one request and leaves the
    state alone. It throws [Error "Failed to fetch recommendations"], and
    returns nothing, exactly when the request is rejected or is answered
    with the body [null]; every other reply is returned as its [data]
    property, whatever its [success], [message] and [error] say, and as
    [undefined] when it has no [data]. *)
Theorem getRecommendations_throws_on_rejection (b : Backend) (s : S)
    (req : Types.RecommendationRequest) :
  exists outcome,
    getRecommendations req b s = (outcome, s, [PostRecommendations req])
    /\ (outcome = Throw (Error "Failed to fetch recommendations")
        <-> rejected_or_null (post_recommendations b req) = true)
    /\ (rejected_or_null (post_recommendations b req) = false ->
        exists response body,
          post_recommendations b req = Return response
          /\ data response = Some body
          /\ outcome = Return (reply_data body)).
Proof.
  run_eff. unfold rejected_or_null.
  destruct (post_recommendations b req) as [response | e]; simpl.
  - destruct (data response) as [body|] eqn:E; simpl.
    + eexists. split; [reflexivity|]. split; [split; discriminate|].
      intros _. exists response, body. auto.
    + eexists. split; [reflexivity|]. split; [tauto | discriminate].
  - eexists. split; [reflexivity|]. split; [tauto | discriminate].
Qed.

End Service.

Section ServiceSamples.
Import JS Api Spec Samples.

(** C9, as stated, fails: a reply with status 200 whose body reports a
    failure ([success: false], with an [error] text) is no failure for
    [getRecommendations]. The call does not throw; it returns the [data] of
    that body, here a result without recommendations. *)
Lemma getRecommendations_returns_reported_failure :
  (exists response body,
     post_recommendations degraded sofa_request = Return response
     /\ data response = Some body
     /\ reply_success body = Some false
     /\ reply_error body = Some "embedding unavailable")
  /\ getRecommendations sofa_request degraded tt
     = (Return (Some no_recommendations), tt, [PostRecommendations sofa_request])
  /\ Types.recommendations no_recommendations = [].
Proof.
  split; [|split; reflexivity].
  eexists _, _. repeat split; reflexivity.
Qed.

Lemma getRecommendations_throws_on_rejection_witness :
  exists outcome,
    getRecommendations sofa_request degraded tt
    = (outcome, tt, [PostRecommendations sofa_request])
    /\ (outcome = Throw (Error "Failed to fetch recommendations")
        <-> rejected_or_null (post_recommendations degraded sofa_request) = true)
    /\ (rejected_or_null (post_recommendations degraded sofa_request) = false ->
        exists response body,
          post_recommendations degraded sofa_request = Return response
          /\ data response = Some body
          /\ outcome = Return (reply_data body)).
Proof.
  exact (getRecommendations_throws_on_rejection degraded tt sofa_request).
Defined.

End ServiceSamples.

(* ===================================================================== *)
(** * List facts used by the retrieval pipeline                           *)
(* ===================================================================== *)

Section ListFacts.
Context {A : Type}.

Lemma filter_sublist (f : A -> bool) (l : list A) :
  List.filter f l `sublist_of` l.
Proof.
  induction l as [|x l IH]; simpl; [constructor|].
  destruct (f x); now constructor.
Qed.

Lemma filter_empty (f : A -> bool) (l : list A) :
  (forall x, In x l -> f x = false) -> List.filter f l = [].
Proof.
  induction l as [|x l IH]; simpl; intros H; [reflexivity|].
  rewrite (H x) by now left. apply IH. intros y Hy. apply H. now right.
Qed.

Lemma sublist_In (l1 l2 : list A) (x : A) :
  l1 `sublist_of` l2 -> In x l1 -> In x l2.
Proof.
  induction 1 as [|y l1 l2 _ IH|y l1 l2 _ IH]; simpl; intuition.
Qed.

Lemma StronglySorted_sublist (R : relation A) (l1 l2 : list A) :
  l1 `sublist_of` l2 -> StronglySorted R l2 -> StronglySorted R l1.
Proof.
  induction 1 as [|x l1 l2 Hsub IH|x l1 l2 Hsub IH]; intros Hs.
  - constructor.
  - apply StronglySorted_inv in Hs as [Hs Hx]. constructor; [auto|].
    rewrite Forall_forall in *. intros y Hy. apply Hx.
    apply list_elem_of_In. apply list_elem_of_In in Hy.
    eapply sublist_In; eauto.
  - apply StronglySorted_inv in Hs as [Hs _]. auto.
Qed.

Lemma StronglySorted_lookup (R : relation A) (l : list A) (i j : nat) (a b : A) :
  StronglySorted R l -> (i < j)%nat ->
  l !! i = Some a -> l !! j = Some b -> R a b.
Proof.
  intros Hs. revert i j. induction Hs as [|x l Hs IH Hx]; intros i j Hij Hi Hj.
  - discriminate.
  - destruct j as [|j]; [lia|]. destruct i as [|i]; simpl in *.
    + injection Hi as <-. rewrite Forall_forall in Hx. apply Hx.
      eapply list_elem_of_lookup_2; eauto.
    + apply (IH i j); [lia | assumption | assumption].
Qed.

Lemma NoDup_map_injective {B} (f : A -> B) (l : list A) (x y : A) :
  NoDup (map f l) -> In x l -> In y l -> f x = f y -> x = y.
Proof.
  induction l as [|z l IH]; simpl; [tauto|].
  intros Hnd. apply NoDup_cons in Hnd as [Hz Hnd].
  rewrite list_elem_of_In in Hz.
  intros [-> | Hx] [-> | Hy] E; auto.
  - exfalso. apply Hz. rewrite E. now apply in_map.
  - exfalso. apply Hz. rewrite <- E. now apply in_map.
Qed.

End ListFacts.

(* ===================================================================== *)
(** * The retrieval pipeline                                              *)
(* ===================================================================== *)

Section RetrievalFacts.
Import Retrieval Spec.

Local Set Default Proof Using "Type".

Context {Vector : Type}.
Variable encoder : nat -> string -> option Vector.
Variable cosine : Vector -> Vector -> Score.
Variable price_of : Types.Product -> Z.
Variable malformed : Types.Filters -> bool.
Variable oversample_factor : nat.

#[local] Instance ranks_before_total : Total ranks_before.
Proof.
  intros a b. unfold ranks_before.
  destruct (Z.lt_trichotomy (c_score a) (c_score b)) as [H | [H | H]]; auto.
  destruct (total String.le (c_id a) (c_id b)); auto.
Qed.

#[local] Instance ranks_before_trans : Transitive ranks_before.
Proof.
  intros a b c [H1 | [H1 L1]] [H2 | [H2 L2]]; unfold ranks_before.
  - left. lia.
  - left. lia.
  - left. lia.
  - right. split; [lia|]. etrans; eauto.
Qed.

(** Two candidates that rank before each other have the same score and
    the same id. *)
Lemma ranks_before_antisym (a b : Candidate) :
  ranks_before a b -> ranks_before b a ->
  c_score a = c_score b /\ c_id a = c_id b.
Proof.
  intros [H1 | [H1 L1]] [H2 | [H2 L2]]; try lia.
  split; [assumption|]. now apply (anti_symm String.le).
Qed.

Lemma delete_ids (id : string) (idx : @Index Vector) :
  map e_id (Retrieval.delete id idx) `sublist_of` map e_id idx
  /\ ~ In id (map e_id (Retrieval.delete id idx)).
Proof.
  unfold Retrieval.delete. induction idx as [|e idx [IH1 IH2]]; simpl.
  - split; [constructor | intros []].
  - destruct (String.eqb_spec (e_id e) id) as [E | E]; simpl.
    + split; [now constructor | exact IH2].
    + split; [now constructor | intros [H | H]; auto].
Qed.

(** [upsert] and [delete] keep the ids of the index distinct. *)
Lemma upsert_well_formed (id : string) (v : Vector) (metadata : Types.Product)
    (idx : @Index Vector) :
  well_formed idx -> well_formed (Retrieval.upsert id v metadata idx).
Proof.
  unfold well_formed, Retrieval.upsert. simpl. intros H.
  destruct (delete_ids id idx) as [Hsub Hnot]. unfold Retrieval.delete in *.
  apply NoDup_cons. split.
  - now rewrite list_elem_of_In.
  - eapply sublist_NoDup; eauto.
Qed.

Lemma delete_well_formed (id : string) (idx : @Index Vector) :
  well_formed idx -> well_formed (Retrieval.delete id idx).
Proof.
  unfold well_formed. intros H.
  destruct (delete_ids id idx) as [Hsub _]. eapply sublist_NoDup; eauto.
Qed.

Lemma ranked_scores (l : list Candidate) :
  StronglySorted ranks_before l -> non_increasing (map c_score l).
Proof.
  unfold non_increasing. induction 1 as [|a l Hs IH Ha]; simpl; constructor.
  - exact IH.
  - destruct l as [|b l]; simpl; constructor.
    apply Forall_inv in Ha. destruct Ha as [H | [H _]]; lia.
Qed.

Lemma ranking_sorted (l : list Candidate) :
  StronglySorted ranks_before (merge_sort ranks_before l).
Proof. apply StronglySorted_merge_sort; apply _. Qed.

Lemma query_sorted (idx : Index) (v : Vector) (k : nat) :
  StronglySorted ranks_before (query cosine idx v k).
Proof.
  unfold query. eapply StronglySorted_sublist; [apply sublist_take|].
  apply ranking_sorted.
Qed.

Lemma query_elements (idx : Index) (v : Vector) (k : nat) (c : Candidate) :
  In c (query cosine idx v k) -> exists e, In e idx /\ c = score_entry cosine v e.
Proof.
  unfold query. intros H.
  apply (sublist_In _ _ _ (sublist_take _ _)) in H.
  apply list_elem_of_In in H. rewrite merge_sort_Permutation in H.
  apply list_elem_of_In, in_map_iff in H. destruct H as (e & <- & He). eauto.
Qed.

(** The answer of the index does not depend on the order in which the
    entries are stored. *)
Lemma query_storage_order (idx idx' : Index) (v : Vector) (k : nat) :
  well_formed idx -> idx ≡ₚ idx' ->
  query cosine idx v k = query cosine idx' v k.
Proof.
  intros Hwf Hperm. unfold query. f_equal.
  apply (StronglySorted_unique_strong ranks_before);
    [| apply ranking_sorted | apply ranking_sorted |].
  - intros x1 x2 H1 H2 R12 R21.
    rewrite merge_sort_Permutation in H1, H2.
    apply list_elem_of_In, in_map_iff in H1, H2.
    destruct H1 as (e1 & <- & He1). destruct H2 as (e2 & <- & He2).
    destruct (ranks_before_antisym _ _ R12 R21) as [_ Hid]. simpl in Hid.
    f_equal. apply (NoDup_map_injective e_id idx); auto.
    apply list_elem_of_In. rewrite Hperm. now apply list_elem_of_In.
  - rewrite !merge_sort_Permutation. now apply Permutation_map.
Qed.

Lemma matching_sorted (filters : option Types.Filters) (k : nat)
    (l : list Candidate) :
  StronglySorted ranks_before l ->
  StronglySorted ranks_before (take k (filter_candidates price_of filters l)).
Proof.
  intros H. eapply StronglySorted_sublist; [apply sublist_take|].
  eapply StronglySorted_sublist; [apply filter_sublist | exact H].
Qed.

Lemma matching_admitted (filters : option Types.Filters) (k : nat)
    (l : list Candidate) :
  Forall (fun c => admits price_of filters (c_metadata c) = true)
         (take k (filter_candidates price_of filters l)).
Proof.
  apply Forall_take, Forall_forall. intros c Hc.
  apply list_elem_of_In, filter_In in Hc. destruct Hc as [_ Hc]. exact Hc.
Qed.

(** The ids of the answers are distinct when those of the index are. *)
Lemma matching_ids_distinct (filters : option Types.Filters) (k n : nat)
    (idx : Index) (v : Vector) :
  well_formed idx ->
  NoDup (map c_id
           (take k (filter_candidates price_of filters (query cosine idx v n)))).
Proof.
  unfold well_formed, query. intros Hwf.
  assert (NoDup (map c_id (merge_sort ranks_before (map (score_entry cosine v) idx))))
    as Hsorted.
  { change (map c_id ?l) with (c_id <$> l). rewrite merge_sort_Permutation.
    change (c_id <$> ?l) with (map c_id l). rewrite map_map.
    erewrite map_ext; [exact Hwf | reflexivity]. }
  eapply sublist_NoDup; [exact Hsorted|].
  change (map c_id ?l) with (c_id <$> l). apply fmap_sublist.
  etrans; [apply sublist_take|]. etrans; [apply filter_sublist|].
  apply sublist_take.
Qed.

(** In a keyed index every answer carries the id of its product. *)
Lemma matching_keyed (filters : option Types.Filters) (k n : nat)
    (idx : Index) (v : Vector) :
  keyed_by_product_id idx ->
  Forall (fun c => c_id c = Types.id (c_metadata c))
         (take k (filter_candidates price_of filters (query cosine idx v n))).
Proof.
  unfold keyed_by_product_id. intros Hkey.
  apply Forall_take, Forall_forall. intros c Hc.
  apply list_elem_of_In, filter_In in Hc. destruct Hc as [Hc _].
  apply query_elements in Hc as (e & He & ->). simpl.
  rewrite Forall_forall in Hkey. apply Hkey. now apply list_elem_of_In.
Qed.

(** The entries of a result, read position by position. *)
Lemma entries_lookup (l : list Candidate) (i : nat) (p : Types.Product)
    (score : Score) :
  map (fun c => (c_metadata c, c_score c)) l !! i = Some (p, score) ->
  exists c, l !! i = Some c /\ c_metadata c = p /\ c_score c = score.
Proof.
  change (map ?f l) with (f <$> l). rewrite list_lookup_fmap.
  destruct (l !! i) as [c|]; simpl; [|discriminate].
  intros [= <- <-]. eauto.
Qed.

(** What [recommend] computes once its input is accepted and embedded. *)
Lemma recommend_ok (idx : Index) (text : string) (k : Z)
    (filters : option Types.Filters) (elapsed : Z) (r : RecommendationResult) :
  recommend encoder cosine price_of malformed oversample_factor
    idx text k filters elapsed = Ok r ->
  exists v,
    embed encoder text = Ok v
    /\ 0 < k
    /\ r = {| entries :=
                map (fun c => (c_metadata c, c_score c))
                  (take (Z.to_nat k)
                     (filter_candidates price_of filters
                        (query cosine idx v (Z.to_nat k * oversample_factor))));
              original_query := text;
              total_found :=
                Z.of_nat (length (filter_candidates price_of filters
                  (query cosine idx v (Z.to_nat k * oversample_factor))));
              latency := elapsed |}.
Proof.
  unfold recommend.
  destruct (negb (JS.truthy (JS.trim text))); [discriminate|].
  destruct (Z.leb_spec k 0); [discriminate|].
  destruct (malformed_filters malformed filters); [discriminate|].
  destruct (embed encoder text) as [v|]; [|discriminate].
  intros [= <-]. exists v. auto.
Qed.

Lemma recommend_accepted (idx : Index) (text : string) (k : Z)
    (filters : option Types.Filters) (elapsed : Z) (v : Vector) :
  embed encoder text = Ok v -> 0 < k ->
  malformed_filters malformed filters = false ->
  recommend encoder cosine price_of malformed oversample_factor
    idx text k filters elapsed =
  Ok {| entries :=
          map (fun c => (c_metadata c, c_score c))
            (take (Z.to_nat k)
               (filter_candidates price_of filters
                  (query cosine idx v (Z.to_nat k * oversample_factor))));
        original_query := text;
        total_found :=
          Z.of_nat (length (filter_candidates price_of filters
            (query cosine idx v (Z.to_nat k * oversample_factor))));
        latency := elapsed |}.
Proof.
  intros He Hk Hm. unfold recommend. rewrite Hm, He.
  assert (JS.truthy (JS.trim text) = true) as ->.
  { unfold embed in He. destruct (JS.truthy (JS.trim text)); [reflexivity|].
    discriminate. }
  simpl. destruct (Z.leb_spec k 0); [lia | reflexivity].
Qed.

Lemma same_answer_latency (idx : Index) (text : string) (k : Z)
    (filters : option Types.Filters) (t t' : Z) :
  same_answer
    (recommend encoder cosine price_of malformed oversample_factor
       idx text k filters t)
    (recommend encoder cosine price_of malformed oversample_factor
       idx text k filters t').
Proof.
  unfold recommend, same_answer.
  destruct (negb (JS.truthy (JS.trim text))); [reflexivity|].
  destruct (k <=? 0); [reflexivity|].
  destruct (malformed_filters malformed filters); [reflexivity|].
  destruct (embed encoder text); simpl; auto.
Qed.

Lemma recommend_storage_order (idx idx' : Index) (text : string) (k : Z)
    (filters : option Types.Filters) (t : Z) :
  well_formed idx -> idx ≡ₚ idx' ->
  recommend encoder cosine price_of malformed oversample_factor
    idx text k filters t
  = recommend encoder cosine price_of malformed oversample_factor
      idx' text k filters t.
Proof.
  intros Hwf Hperm. unfold recommend.
  destruct (negb (JS.truthy (JS.trim text))); [reflexivity|].
  destruct (k <=? 0); [reflexivity|].
  destruct (malformed_filters malformed filters); [reflexivity|].
  destruct (embed encoder text) as [v|]; [|reflexivity].
  now rewrite (query_storage_order idx idx' v _ Hwf Hperm).
Qed.

(** C2: every entry of a result of [recommend] is a product that satisfies
    the filters of the request, and the scores never increase along the
    entries. The client-side search of [handleSearch], which computes no
    score, likewise shows only products that match its query. *)
Theorem recommend_filtered_and_ranked (idx : Index) (text : string) (k : Z)
    (filters : option Types.Filters) (elapsed : Z) (r : RecommendationResult) :
  (recommend encoder cosine price_of malformed oversample_factor
     idx text k filters elapsed = Ok r ->
   Forall (fun e => admits price_of filters e.1 = true) (entries r)
   /\ non_increasing (map snd (entries r)))
  /\ (forall b s,
        JS.truthy (JS.trim (RecommendationPage.query s)) = true ->
        RecommendationPage.error (RecommendationPage.handleSearch b s).1.2 = None ->
        Forall (matches_query (RecommendationPage.query s))
          (RecommendationPage.recommendations
             (RecommendationPage.handleSearch b s).1.2)).
Proof.
  split; [|apply handleSearch_shows_matches].
  intros H. apply recommend_ok in H as (v & _ & _ & ->). simpl. split.
  - apply Forall_map. simpl. apply matching_admitted.
  - rewrite map_map. simpl. apply ranked_scores, matching_sorted, query_sorted.
Qed.

(** C3: [recommend] answers the same for the same arguments against the
    same index, whatever the clock measures and in whatever order the index
    stores its entries. The order of the entries of a result is fixed by
    the scores and the product ids alone: of two entries the earlier one
    has the higher score or, with the same score, the smaller product id,
    and the two ids differ. The client-side search of [handleSearch] is
    repeatable as well: searching again against the same backend shows the
    same products in the same order. *)
Theorem recommend_deterministic (idx : Index) (text : string) (k : Z)
    (filters : option Types.Filters) (t t' : Z) :
  well_formed idx -> keyed_by_product_id idx ->
  same_answer
    (recommend encoder cosine price_of malformed oversample_factor
       idx text k filters t)
    (recommend encoder cosine price_of malformed oversample_factor
       idx text k filters t')
  /\ (forall idx',
        idx ≡ₚ idx' ->
        same_answer
          (recommend encoder cosine price_of malformed oversample_factor
             idx text k filters t)
          (recommend encoder cosine price_of malformed oversample_factor
             idx' text k filters t'))
  /\ (forall r i j pa sa pb sb,
        recommend encoder cosine price_of malformed oversample_factor
          idx text k filters t = Ok r ->
        (i < j)%nat ->
        entries r !! i = Some (pa, sa) -> entries r !! j = Some (pb, sb) ->
        sb <= sa
        /\ (sa = sb ->
            String.le (Types.id pa) (Types.id pb) /\ Types.id pa <> Types.id pb))
  /\ (forall b s,
        (RecommendationPage.handleSearch b
           (RecommendationPage.handleSearch b s).1.2).1.2
        = (RecommendationPage.handleSearch b s).1.2).
Proof.
  intros Hwf Hkey.
  split; [apply same_answer_latency|]. split; [|split; [|apply handleSearch_idempotent]].
  - intros idx' Hperm.
    rewrite (recommend_storage_order idx idx' text k filters t Hwf Hperm).
    apply same_answer_latency.
  - intros r i j pa sa pb sb H Hij Ha Hb.
    apply recommend_ok in H as (v & _ & _ & ->). simpl in Ha, Hb.
    apply entries_lookup in Ha as (a & Ha & <- & <-).
    apply entries_lookup in Hb as (b & Hb & <- & <-).
    pose proof (matching_keyed filters (Z.to_nat k)
                  (Z.to_nat k * oversample_factor) idx v Hkey) as Hids.
    rewrite <- (Forall_lookup_1 _ _ _ _ Hids Ha).
    rewrite <- (Forall_lookup_1 _ _ _ _ Hids Hb).
    assert (c_id a <> c_id b) as Hne.
    { intros Heq.
      pose proof (matching_ids_distinct filters (Z.to_nat k)
                    (Z.to_nat k * oversample_factor) idx v Hwf) as Hnd.
      change (map c_id ?l) with (c_id <$> l) in Hnd.
      assert (i = j) as Hsame; [|lia].
      apply (NoDup_lookup _ i j (c_id a) Hnd).
      - now rewrite list_lookup_fmap, Ha.
      - now rewrite list_lookup_fmap, Hb, Heq. }
    assert (ranks_before a b) as [R | [R L]].
    { eapply StronglySorted_lookup; eauto.
      apply matching_sorted, query_sorted. }
    + split; lia.
    + split; [lia | auto].
Qed.


(** C4: the Ranking & Filter Engine answers with a subsequence of the
    candidates in their order; a candidate the filters reject is never in
    the answer, every answer passes the filters, and with fewer matches than
    the requested size the answer is exactly the matches. The client-side
    filter of [handleSearch] subtracts in the same way. *)
Theorem filtering_only_subtracts (filters : option Types.Filters) (k : nat)
    (candidates : list Candidate) :
  rank_and_filter price_of filters k candidates `sublist_of` candidates
  /\ (forall c, In c candidates ->
        admits price_of filters (c_metadata c) = false ->
        ~ In c (rank_and_filter price_of filters k candidates))
  /\ Forall (fun c => admits price_of filters (c_metadata c) = true)
        (rank_and_filter price_of filters k candidates)
  /\ ((length (filter_candidates price_of filters candidates) < k)%nat ->
      rank_and_filter price_of filters k candidates
        = filter_candidates price_of filters candidates
      /\ (length (rank_and_filter price_of filters k candidates) < k)%nat)
  /\ (forall q ps out,
        JS.filterC (RecommendationPage.search_predicate q) ps = JS.Return out ->
        out `sublist_of` ps
        /\ forall p, In p ps -> search_matches q p = false -> ~ In p out).
Proof.
  unfold rank_and_filter. repeat split.
  - etrans; [apply sublist_take | apply filter_sublist].
  - intros c _ Hc Hin.
    apply (sublist_In _ _ _ (sublist_take _ _)), filter_In in Hin.
    destruct Hin as [_ Hin]. congruence.
  - apply matching_admitted.
  - apply take_ge. lia.
  - rewrite take_ge by lia. assumption.
  - apply filterC_returns in H as ->. apply filter_sublist.
  - apply filterC_returns in H as ->. intros p _ Hp Hin.
    apply filter_In in Hin. destruct Hin as [_ Hin]. congruence.
Qed.

(** C6: a [query] for more entries than the index holds returns all of
    them, a [query] for none returns the empty list, and a request whose
    filters reject every candidate is answered with the empty list and
    [total_found = 0]; none of the three is a failure. *)
Theorem query_boundaries (idx : Index) (v : Vector) :
  (forall k, (length idx < k)%nat ->
     query cosine idx v k ≡ₚ map (score_entry cosine v) idx
     /\ length (query cosine idx v k) = length idx)
  /\ query cosine idx v 0 = []
  /\ (forall text k filters elapsed w,
        embed encoder text = Ok w -> 0 < k ->
        malformed_filters malformed filters = false ->
        (forall c, In c (query cosine idx w (Z.to_nat k * oversample_factor)) ->
           admits price_of filters (c_metadata c) = false) ->
        recommend encoder cosine price_of malformed oversample_factor
          idx text k filters elapsed
        = Ok {| entries := []; original_query := text; total_found := 0;
                latency := elapsed |}).
Proof.
  repeat split.
  - unfold query. rewrite take_ge.
    + apply merge_sort_Permutation.
    + rewrite merge_sort_Permutation, length_map. lia.
  - unfold query. rewrite take_ge.
    + now rewrite merge_sort_Permutation, length_map.
    + rewrite merge_sort_Permutation, length_map. lia.
  - intros text k filters elapsed w He Hk Hm Hnone.
    rewrite (recommend_accepted idx text k filters elapsed w He Hk Hm).
    unfold filter_candidates. rewrite filter_empty; [|exact Hnone].
    now rewrite take_nil.
Qed.

End RetrievalFacts.

Section RetrievalWitnesses.
Import Retrieval Spec Samples.

Lemma recommend_filtered_and_ranked_witness :
  Forall (fun e => admits stub_price None e.1 = true)
         [(chair_c, -4); (sofa_a, -5)]
  /\ non_increasing (map snd [(chair_c, -4); (sofa_a, -5)]).
Proof.
  apply (proj1 (recommend_filtered_and_ranked stub_encoder stub_cosine
           stub_price never_malformed 3%nat sample_index "red furniture" 2 None 5
           {| entries := [(chair_c, -4); (sofa_a, -5)];
              original_query := "red furniture"; total_found := 3;
              latency := 5 |})).
  vm_compute. reflexivity.
Defined.

Lemma sample_index_well_formed : well_formed sample_index.
Proof. apply (bool_decide_unpack _). vm_compute. exact I. Qed.

Lemma sample_index_keyed : keyed_by_product_id sample_index.
Proof. repeat constructor. Qed.

Lemma recommend_deterministic_witness :
  same_answer (stub_recommend sample_index "red furniture" 3 None 5)
              (stub_recommend swapped_index "red furniture" 3 None 9)
  /\ (-5 <= -5
      /\ (-5 = -5 ->
          String.le (Types.id sofa_a) (Types.id sofa_b)
          /\ Types.id sofa_a <> Types.id sofa_b)).
Proof.
  split.
  - apply (proj1 (proj2 (recommend_deterministic stub_encoder stub_cosine
             stub_price never_malformed 3%nat sample_index "red furniture" 3
             None 5 9 sample_index_well_formed sample_index_keyed))).
    apply perm_swap.
  - apply (proj1 (proj2 (proj2 (recommend_deterministic stub_encoder stub_cosine
             stub_price never_malformed 3%nat sample_index "red furniture" 3
             None 5 9 sample_index_well_formed sample_index_keyed)))
             {| entries := [(chair_c, -4); (sofa_a, -5); (sofa_b, -5)];
                original_query := "red furniture"; total_found := 3;
                latency := 5 |}
             1%nat 2%nat sofa_a (-5) sofa_b (-5)).
    + vm_compute. reflexivity.
    + lia.
    + reflexivity.
    + reflexivity.
Defined.


Lemma filtering_only_subtracts_witness :
  let candidates := query stub_cosine sample_index 13 6 in
  rank_and_filter stub_price (Some only_chairs) 2 candidates
    = filter_candidates stub_price (Some only_chairs) candidates
  /\ (length (rank_and_filter stub_price (Some only_chairs) 2 candidates) < 2)%nat.
Proof.
  apply (proj1 (proj2 (proj2 (proj2 (filtering_only_subtracts stub_price
           (Some only_chairs) 2%nat (query stub_cosine sample_index 13 6%nat)))))).
  vm_compute. lia.
Defined.

Lemma query_boundaries_witness :
  (query stub_cosine sample_index 8 7 ≡ₚ map (score_entry stub_cosine 8) sample_index
   /\ length (query stub_cosine sample_index 8 7) = length sample_index)
  /\ stub_recommend sample_index "red furniture" 2 (Some only_marble) 5
     = Ok {| entries := []; original_query := "red furniture";
             total_found := 0; latency := 5 |}.
Proof.
  split.
  - apply (proj1 (query_boundaries stub_encoder stub_cosine stub_price
             never_malformed 3%nat sample_index 8) 7%nat).
    vm_compute. lia.
  - apply (proj2 (proj2 (query_boundaries stub_encoder stub_cosine stub_price
             never_malformed 3%nat sample_index 8))
             "red furniture" 2 (Some only_marble) 5 13).
    + reflexivity.
    + lia.
    + reflexivity.
    + intros c H. vm_compute in H.
      destruct H as [<- | [<- | [<- | []]]]; reflexivity.
Defined.

End RetrievalWitnesses.


(* ===================================================================== *)
(** * More on handleSearch                                                *)
(* ===================================================================== *)

Section SearchMore.
Import JS PageTypes Api RecommendationPage Spec Vocabulary Samples MoreSamples View.

#[local] Arguments String.append !_ _ / : simpl nomatch.

Lemma lowerChar_whitespace (c : ascii) :
  isWhiteSpace (lowerChar c) = isWhiteSpace c.
Proof. destruct c as [[] [] [] [] [] [] [] []]; reflexivity. Qed.

Lemma toLowerCase_whitespace (s : string) :
  all_whitespace (toLowerCase s) = all_whitespace s.
Proof.
  induction s as [|c s IH]; simpl; [reflexivity|].
  now rewrite lowerChar_whitespace, IH.
Qed.

Lemma trim_truthy (s : string) :
  truthy (trim s) = negb (all_whitespace s).
Proof.
  destruct (truthy (trim s)) eqn:E; destruct (all_whitespace s) eqn:W;
    try reflexivity.
  - apply trim_falsy in W. congruence.
  - apply trim_falsy in E. congruence.
Qed.

Lemma truthy_trim_truthy (s : string) :
  truthy (trim s) = true -> truthy s = true.
Proof. destruct s; [discriminate | reflexivity]. Qed.

Lemma includes_trans (s b a : string) :
  includes s b = true -> includes b a = true -> includes s a = true.
Proof.
  rewrite !includes_spec. intros (pre & post & ->) (pre' & post' & ->).
  exists (pre +:+ pre'), (post' +:+ post).
  now rewrite !append_assoc.
Qed.

Lemma filter_sublist_weaker {A} (f g : A -> bool) (l : list A) :
  (forall x, f x = true -> g x = true) ->
  List.filter f l `sublist_of` List.filter g l.
Proof.
  intros H. induction l as [|x l IH]; simpl; [constructor|].
  destruct (f x) eqn:F.
  - rewrite (H x F). now constructor.
  - destruct (g x); [now constructor | exact IH].
Qed.

Lemma search_outcome_found (b : Backend) (q : string) (found : list Product) :
  search_outcome b q = Some found ->
  exists ps, served b = Some ps /\ found = List.filter (search_matches q) ps.
Proof.
  unfold search_outcome, served.
  destruct (get_sample_products b) as [response|]; [|discriminate].
  destruct (data response) as [body|]; [|discriminate].
  destruct (filterC _ _) as [out|] eqn:E; [|discriminate].
  intros [= <-]. apply filterC_returns in E. eauto.
Qed.

Lemma search_predicate_cases (q : string) (p : Product) :
  (search_predicate q p = Return (search_matches q p) /\ ~ unsearchable q p)
  \/ (search_predicate q p = Throw TypeError /\ unsearchable q p).
Proof.
  unfold search_predicate, search_matches, unsearchable.
  destruct (includes_lower (title p) q);
    [left; split; [reflexivity | intros (_ & [=] & _)]|].
  destruct (includes_lower (description p) q);
    [left; split; [reflexivity | intros (_ & _ & [=])]|].
  destruct (material p).
  - left. split; [reflexivity | intros ([=] & _)].
  - right. auto.
Qed.

(** The filter of [handleSearch] either completes, and then no product is
    unsearchable, or throws a [TypeError], and then one is. *)
Lemma filterC_cases (q : string) (ps : list Product) :
  (filterC (search_predicate q) ps = Return (List.filter (search_matches q) ps)
   /\ ~ Exists (unsearchable q) ps)
  \/ (filterC (search_predicate q) ps = Throw TypeError
      /\ Exists (unsearchable q) ps).
Proof.
  induction ps as [|p ps IH]; simpl.
  - left. split; [reflexivity | intros H; inversion H].
  - destruct (search_predicate_cases q p) as [[-> Hp] | [-> Hp]]; simpl.
    + destruct IH as [[-> Hps] | [-> Hps]]; simpl.
      * left. split; [now destruct (search_matches q p)|].
        intros H. apply Exists_cons in H. tauto.
      * right. split; [reflexivity | now apply Exists_cons_tl].
    + right. split; [reflexivity | now apply Exists_cons_hd].
Qed.

Lemma search_predicate_lower (q q' : string) (p : Product) :
  toLowerCase q = toLowerCase q' -> search_predicate q p = search_predicate q' p.
Proof.
  intros H. unfold search_predicate, includes_lower. now rewrite H.
Qed.

Lemma filterC_ext {A} (f g : A -> Completion bool) (l : list A) :
  (forall x, f x = g x) -> filterC f l = filterC g l.
Proof.
  intros H. induction l as [|x l IH]; simpl; [reflexivity|].
  now rewrite H, IH.
Qed.

Lemma search_outcome_lower (b : Backend) (q q' : string) :
  toLowerCase q = toLowerCase q' -> search_outcome b q = search_outcome b q'.
Proof.
  intros H. unfold search_outcome.
  destruct (get_sample_products b) as [response|]; [|reflexivity].
  destruct (data response) as [body|]; [|reflexivity].
  now rewrite (filterC_ext _ (search_predicate q')
                 _ (fun p => search_predicate_lower q q' p H)).
Qed.

Lemma search_outcome_served (b : Backend) (q : string) (ps : list Product) :
  served b = Some ps ->
  search_outcome b q =
    match filterC (search_predicate q) ps with
    | Return found => Some found
    | Throw _ => None
    end.
Proof.
  unfold served, search_outcome.
  destruct (get_sample_products b) as [response|]; [|discriminate].
  destruct (data response) as [body|]; [|discriminate].
  now intros [= <-].
Qed.

(** X1: a search with a non-blank query does not throw when the
    sample-products request is rejected or answered with the body [null]:
    it shows "Failed to get recommendations. Please try again.", keeps the
    products on display and clears the loading flag. A reply whose body has
    no [products], such as an empty body, is no failure: the search shows
    no products and clears the error. *)
Theorem handleSearch_failure_keeps_list (b : Backend) (s : State) :
  truthy (trim (query s)) = true ->
  (rejected_or_null (get_sample_products b) = true ->
   handleSearch b s = (Return tt, search_failed s, [GetSampleProducts]))
  /\ (forall response body,
        get_sample_products b = Return response ->
        data response = Some body -> products body = None ->
        handleSearch b s = (Return tt, searched s [], [GetSampleProducts])).
Proof.
  intros Hq. rewrite handleSearch_run, Hq. unfold search_outcome. split.
  - intros Hf. unfold rejected_or_null in Hf.
    destruct (get_sample_products b) as [response|]; [|reflexivity].
    destruct (data response); [discriminate | reflexivity].
  - intros response body -> -> ->. reflexivity.
Qed.

Lemma handleSearch_failure_keeps_list_witness :
  (rejected_or_null (get_sample_products null_body) = true ->
   handleSearch null_body (page "sofa" [oak_chair])
   = (Return tt, search_failed (page "sofa" [oak_chair]), [GetSampleProducts]))
  /\ (forall response body,
        get_sample_products null_body = Return response ->
        data response = Some body -> products body = None ->
        handleSearch null_body (page "sofa" [oak_chair])
        = (Return tt, searched (page "sofa" [oak_chair]) [], [GetSampleProducts])).
Proof.
  apply (handleSearch_failure_keeps_list null_body (page "sofa" [oak_chair])).
  reflexivity.
Defined.

(** The two replies side by side: the body [null] is a failure, the empty
    body an empty result. *)
Example handleSearch_null_and_empty_body :
  handleSearch null_body (page "sofa" [oak_chair])
  = (Return tt, search_failed (page "sofa" [oak_chair]), [GetSampleProducts])
  /\ handleSearch empty_body (page "sofa" [oak_chair])
     = (Return tt, searched (page "sofa" [oak_chair]) [], [GetSampleProducts]).
Proof. split; reflexivity. Qed.

(** X2: [handleSearch] never throws and never touches the query, the
    backend status or the set of products being described; with a non-blank
    query it sends exactly one request and always ends with the loading
    flag cleared, whatever the backend answers. *)
Theorem handleSearch_frame (b : Backend) (s : State) :
  (handleSearch b s).1.1 = Return tt
  /\ query (handleSearch b s).1.2 = query s
  /\ backendStatus (handleSearch b s).1.2 = backendStatus s
  /\ generatingAI (handleSearch b s).1.2 = generatingAI s
  /\ loading (handleSearch b s).1.2
     = (if truthy (trim (query s)) then false else loading s)
  /\ (handleSearch b s).2
     = (if truthy (trim (query s)) then [GetSampleProducts] else []).
Proof.
  rewrite handleSearch_run.
  destruct (truthy (trim (query s))); simpl; [|tauto].
  destruct (search_outcome b (query s)); simpl; tauto.
Qed.

(** X3: when the backend serves its sample products, a search with a
    non-blank query fails exactly when one of them is unsearchable (no
    material, and neither title nor description contains the query): then
    the error message is shown and the display is kept; otherwise the
    matching products are shown and the error is cleared. *)
Theorem handleSearch_fails_iff_unsearchable (b : Backend) (s : State)
    (ps : list Product) :
  truthy (trim (query s)) = true ->
  served b = Some ps ->
  (Exists (unsearchable (query s)) ps ->
   handleSearch b s = (Return tt, search_failed s, [GetSampleProducts]))
  /\ (~ Exists (unsearchable (query s)) ps ->
      handleSearch b s =
        (Return tt, searched s (List.filter (search_matches (query s)) ps),
         [GetSampleProducts])).
Proof.
  intros Hq Hs. rewrite handleSearch_run, Hq, (search_outcome_served _ _ _ Hs).
  destruct (filterC_cases (query s) ps) as [[-> H] | [-> H]]; split; intros H';
    try reflexivity; contradiction.
Qed.

Lemma handleSearch_fails_iff_unsearchable_witness :
  handleSearch (backend [red_sofa; desk_lamp]) (page "sofa" [oak_chair])
    = (Return tt, search_failed (page "sofa" [oak_chair]), [GetSampleProducts])
  /\ handleSearch (backend [red_sofa; desk_lamp]) (page "lamp" [oak_chair])
     = (Return tt, searched (page "lamp" [oak_chair]) [desk_lamp],
        [GetSampleProducts]).
Proof.
  split.
  - apply (proj1 (handleSearch_fails_iff_unsearchable
             (backend [red_sofa; desk_lamp]) (page "sofa" [oak_chair])
             [red_sofa; desk_lamp] eq_refl eq_refl)).
    apply Exists_cons_tl, Exists_cons_hd. repeat split.
  - apply (proj2 (handleSearch_fails_iff_unsearchable
             (backend [red_sofa; desk_lamp]) (page "lamp" [oak_chair])
             [red_sofa; desk_lamp] eq_refl eq_refl)).
    intros H. repeat (apply Exists_cons in H as [(H1 & H2 & H3) | H];
      [discriminate|]). inversion H.
Defined.

(** X4: the search ignores the case of the query: two non-blank queries
    that differ only in the case of their letters, searched from the same
    display against the same backend, show the same products and the same
    error. *)
Theorem handleSearch_case_insensitive (b : Backend) (s s' : State) :
  toLowerCase (query s) = toLowerCase (query s') ->
  truthy (trim (query s)) = true ->
  recommendations s = recommendations s' ->
  truthy (trim (query s')) = true
  /\ recommendations (handleSearch b s).1.2
     = recommendations (handleSearch b s').1.2
  /\ error (handleSearch b s).1.2 = error (handleSearch b s').1.2.
Proof.
  intros Hl Hq Hr.
  assert (truthy (trim (query s')) = true) as Hq'.
  { rewrite trim_truthy, <- toLowerCase_whitespace, <- Hl,
      toLowerCase_whitespace, <- trim_truthy. exact Hq. }
  split; [exact Hq'|].
  rewrite !handleSearch_run, Hq, Hq', (search_outcome_lower b _ _ Hl).
  destruct (search_outcome b (query s')); simpl; auto.
Qed.

Lemma handleSearch_case_insensitive_witness :
  truthy (trim "sofa") = true
  /\ recommendations
       (handleSearch (backend [red_sofa; oak_chair]) (page "SoFa" [])).1.2
     = recommendations
         (handleSearch (backend [red_sofa; oak_chair]) (page "sofa" [])).1.2
  /\ error (handleSearch (backend [red_sofa; oak_chair]) (page "SoFa" [])).1.2
     = error (handleSearch (backend [red_sofa; oak_chair]) (page "sofa" [])).1.2.
Proof.
  apply (handleSearch_case_insensitive (backend [red_sofa; oak_chair])
           (page "SoFa" []) (page "sofa" [])); reflexivity.
Defined.

(** X5: a longer query narrows the result: when the query [q] is contained
    in the query [q'] (case ignored) and both searches succeed against the
    same backend, the products found for [q'] are a subsequence of those
    found for [q]. *)
Theorem longer_query_narrows (b : Backend) (q q' : string)
    (found found' : list Product) :
  includes_lower q' q = true ->
  search_outcome b q = Some found ->
  search_outcome b q' = Some found' ->
  found' `sublist_of` found.
Proof.
  intros Hi Hf Hf'.
  apply search_outcome_found in Hf as (ps & Hs & ->).
  apply search_outcome_found in Hf' as (ps' & Hs' & ->).
  assert (ps' = ps) as -> by congruence.
  apply filter_sublist_weaker. intros p.
  assert (forall x, includes_lower x q' = true -> includes_lower x q = true) as Hw.
  { unfold includes_lower in *. intros x Hx. eapply includes_trans; eauto. }
  unfold search_matches. rewrite !orb_true_iff.
  intros [[H | H] | H]; auto.
  destruct (material p); [auto | discriminate].
Qed.

Lemma longer_query_narrows_witness :
  [red_sofa] `sublist_of` [red_sofa; oak_chair].
Proof.
  apply (longer_query_narrows (backend [red_sofa; oak_chair])
           "A" "Leather" [red_sofa; oak_chair] [red_sofa]); reflexivity.
Defined.

(** X6: the guard of [handleSearch] and the "Find Products" button agree:
    a click on an enabled button always sends the sample-products request,
    and whenever the handler sends nothing the button was disabled. *)
Theorem enabled_search_sends_request (b : Backend) (s : State) :
  (searchDisabled s = false -> (handleSearch b s).2 = [GetSampleProducts])
  /\ ((handleSearch b s).2 = [] -> searchDisabled s = true).
Proof.
  unfold searchDisabled. rewrite handleSearch_run.
  destruct (truthy (trim (query s))); simpl.
  - split; [reflexivity | discriminate].
  - rewrite orb_true_r. split; [discriminate | reflexivity].
Qed.

Lemma enabled_search_sends_request_witness :
  (handleSearch offline (page "sofa" [])).2 = [GetSampleProducts]
  /\ searchDisabled (page "  " []) = true.
Proof.
  split.
  - apply (proj1 (enabled_search_sends_request offline (page "sofa" []))).
    reflexivity.
  - apply (proj2 (enabled_search_sends_request offline (page "  " []))).
    reflexivity.
Defined.

(** X7: after a search with a non-blank query the page shows either the
    product grid or the "No recommendations found" message, never both and
    never neither: the message is shown exactly when the list on display is
    empty. *)
Theorem no_results_message_after_search (b : Backend) (s : State) :
  truthy (trim (query s)) = true ->
  (showsNoResults (handleSearch b s).1.2 = true
   <-> recommendations (handleSearch b s).1.2 = [])
  /\ showsProducts (handleSearch b s).1.2
     = negb (showsNoResults (handleSearch b s).1.2).
Proof.
  intros Hq. unfold showsNoResults, showsProducts.
  rewrite handleSearch_run, Hq. simpl.
  assert (forall s', query s' = query s -> loading s' = false ->
            (Nat.eqb (length (recommendations s')) 0 && negb (loading s')
               && truthy (query s') = true
             <-> recommendations s' = [])
            /\ negb (Nat.eqb (length (recommendations s')) 0)
               = negb (Nat.eqb (length (recommendations s')) 0
                       && negb (loading s') && truthy (query s'))) as H.
  { intros s' -> ->. rewrite (truthy_trim_truthy _ Hq). simpl.
    rewrite !andb_true_r. split; [|reflexivity].
    destruct (recommendations s'); simpl; split; (reflexivity || discriminate). }
  destruct (search_outcome b (query s)); apply H; reflexivity.
Qed.

Lemma no_results_message_after_search_witness :
  (showsNoResults
     (handleSearch (backend [red_sofa]) (page "table" [red_sofa])).1.2 = true
   <-> recommendations
         (handleSearch (backend [red_sofa]) (page "table" [red_sofa])).1.2 = [])
  /\ showsProducts
       (handleSearch (backend [red_sofa]) (page "table" [red_sofa])).1.2
     = negb (showsNoResults
               (handleSearch (backend [red_sofa]) (page "table" [red_sofa])).1.2).
Proof.
  apply (no_results_message_after_search (backend [red_sofa])
           (page "table" [red_sofa])).
  reflexivity.
Defined.

End SearchMore.

(* ===================================================================== *)
(** * More on generateAIDescription                                       *)
(* ===================================================================== *)

Section DescriptionsMore.
Import JS PageTypes Api RecommendationPage Spec Vocabulary Samples MoreSamples View.

(** X8: a generation the backend rejects is swallowed: the handler does not
    throw, shows no error, leaves the products as they are and only takes
    the product's id out of the set of running generations. *)
Theorem generateAIDescription_failure_is_silent (b : Backend) (s : State)
    (product : Product) (e : Exception) :
  truthy_opt (ai_description product) = false ->
  post_generate_description b (id product) (product_data product) = Throw e ->
  RecommendationPage.generateAIDescription product b s =
    (Return tt,
     with_generating s (({[ id product ]} ∪ generatingAI s) ∖ {[ id product ]}),
     [PostGenerateDescription (id product) (product_data product)]).
Proof.
  intros Hd Hpost. rewrite (generateAIDescription_run b s product Hd), Hpost.
  reflexivity.
Qed.

Lemma generateAIDescription_failure_is_silent_witness :
  RecommendationPage.generateAIDescription red_sofa offline
    (busy_page "sofa" [red_sofa])
  = (Return tt,
     with_generating (busy_page "sofa" [red_sofa])
       (({[ "p1" ]} ∪ {[ "p9" ]}) ∖ {[ "p1" ]}),
     [PostGenerateDescription "p1" (product_data red_sofa)]).
Proof.
  apply (generateAIDescription_failure_is_silent offline
           (busy_page "sofa" [red_sofa]) red_sofa (AxiosError "Network Error"));
    reflexivity.
Defined.

(** X9: when [generateAIDescription] has run for a product, the generate
    button of that product is enabled again, whatever the backend answered,
    and the buttons of the products with another id are as before. *)
Theorem generateAIDescription_releases_button (b : Backend) (s : State)
    (product : Product) :
  truthy_opt (ai_description product) = false ->
  generateDisabled (RecommendationPage.generateAIDescription product b s).1.2
    product = false
  /\ (forall p', id p' <> id product ->
        generateDisabled
          (RecommendationPage.generateAIDescription product b s).1.2 p'
        = generateDisabled s p').
Proof.
  intros Hd.
  assert (generatingAI (RecommendationPage.generateAIDescription product b s).1.2
          = ({[ id product ]} ∪ generatingAI s) ∖ {[ id product ]}) as Hset.
  { rewrite (generateAIDescription_run b s product Hd). simpl.
    destruct (post_generate_description b (id product) (product_data product))
      as [response|]; [|reflexivity].
    destruct (describe_products product (data response) (recommendations s));
      reflexivity. }
  unfold generateDisabled. rewrite Hset. split.
  - apply bool_decide_eq_false. set_solver.
  - intros p' Hne. apply bool_decide_ext. set_solver.
Qed.

Lemma generateAIDescription_releases_button_witness :
  generateDisabled
    (RecommendationPage.generateAIDescription red_sofa offline
       (busy_page "sofa" [red_sofa])).1.2 red_sofa = false
  /\ (forall p', id p' <> id red_sofa ->
        generateDisabled
          (RecommendationPage.generateAIDescription red_sofa offline
             (busy_page "sofa" [red_sofa])).1.2 p'
        = generateDisabled (busy_page "sofa" [red_sofa]) p').
Proof.
  apply (generateAIDescription_releases_button offline
           (busy_page "sofa" [red_sofa]) red_sofa).
  reflexivity.
Defined.

(** X10: [generateAIDescription] changes nothing of the page but the
    generated descriptions and the set of running generations: query,
    loading flag, backend status and error stay; the products keep their
    number, order and every field other than [ai_description]; and a
    product with another id is not changed at all. The run ends normally
    but for one answer: when the reply has the body [null] and a product
    with the id is on display, the queued updater reads [ai_description] of
    [null] and throws a [TypeError], which the handler's [try] no longer
    covers; the products then stay as they were. *)
Theorem generateAIDescription_preserves_products (b : Backend) (s : State)
    (product : Product) :
  let run := RecommendationPage.generateAIDescription product b s in
  let s' := run.1.2 in
  query s' = query s /\ loading s' = loading s
  /\ backendStatus s' = backendStatus s /\ error s' = error s
  /\ map undescribed (recommendations s') = map undescribed (recommendations s)
  /\ (forall i p, recommendations s !! i = Some p -> id p <> id product ->
        recommendations s' !! i = Some p)
  /\ (run.1.1 = Return tt
      \/ run.1.1 = Throw TypeError /\ recommendations s' = recommendations s)
  /\ (run.1.1 = Throw TypeError
      <-> truthy_opt (ai_description product) = false
          /\ null_reply b product
          /\ exists p, In p (recommendations s) /\ id p = id product).
Proof.
  assert (forall shown : list Product,
            existsb (fun p => String.eqb (id p) (id product)) shown = true
            <-> exists p, In p shown /\ id p = id product) as Hex.
  { intros shown. rewrite existsb_exists.
    split; intros (p & Hin & Hp); exists p; split; auto; now apply String.eqb_eq. }
  unfold null_reply.
  destruct (truthy_opt (ai_description product)) eqn:Hd.
  - rewrite (generateAIDescription_guard b s product Hd). simpl.
    do 4 (split; [reflexivity|]).
    split; [reflexivity|]. split; [auto|]. split; [now left|].
    split; [discriminate | intros (H & _); discriminate].
  - rewrite (generateAIDescription_run b s product Hd). simpl.
    destruct (post_generate_description b (id product) (product_data product))
      as [response|] eqn:Hpost.
    + destruct (data response) as [r|] eqn:Hr.
      * rewrite describe_products_reply. simpl.
        do 4 (split; [reflexivity|]).
        split; [apply described_undescribed|].
        split; [intros i p; apply described_other|]. split; [now left|].
        split; [discriminate|].
        intros (_ & (response' & [= <-] & Hnull) & _). congruence.
      * rewrite describe_products_null.
        destruct (existsb (fun p => String.eqb (id p) (id product))
                    (recommendations s)) eqn:He; simpl.
        -- do 4 (split; [reflexivity|]).
           split; [reflexivity|]. split; [auto|]. split; [now right|].
           split; [|reflexivity]. intros _. split; [reflexivity|].
           split; [exists response; auto|]. now apply Hex.
        -- do 4 (split; [reflexivity|]).
           split; [reflexivity|]. split; [auto|]. split; [now left|].
           split; [discriminate|].
           intros (_ & _ & Hp). apply Hex in Hp. congruence.
    + simpl. do 4 (split; [reflexivity|]).
      split; [reflexivity|]. split; [auto|]. split; [now left|].
      split; [discriminate|].
      intros (_ & (response' & [=] & _) & _).
Qed.

(** The reply [null] for a product on display: the run throws, the button
    is released and the products are as before. *)
Example generateAIDescription_null_reply :
  RecommendationPage.generateAIDescription red_sofa null_describer
    (page "sofa" [red_sofa; oak_chair])
  = (Throw TypeError, page "sofa" [red_sofa; oak_chair],
     [PostGenerateDescription "p1" (product_data red_sofa)]).
Proof. vm_compute. f_equal. Qed.

(** X11: a generated description does not survive a search: after a
    generation, a successful search shows exactly the products it finds at
    the backend, the same as if no description had been generated. *)
Theorem search_drops_generated_descriptions (b b' : Backend) (s : State)
    (product : Product) (found : list Product) :
  truthy (trim (query s)) = true ->
  search_outcome b' (query s) = Some found ->
  recommendations
    (handleSearch b' (RecommendationPage.generateAIDescription product b s).1.2).1.2
  = found
  /\ recommendations (handleSearch b' s).1.2 = found.
Proof.
  intros Hq Hf.
  assert (query (RecommendationPage.generateAIDescription product b s).1.2
          = query s) as Hquery.
  { destruct (truthy_opt (ai_description product)) eqn:Hd.
    - now rewrite (generateAIDescription_guard b s product Hd).
    - rewrite (generateAIDescription_run b s product Hd). simpl.
      destruct (post_generate_description b (id product) (product_data product))
        as [response|]; [|reflexivity].
      destruct (describe_products product (data response) (recommendations s));
        reflexivity. }
  rewrite !handleSearch_run, Hquery, Hq, Hf. auto.
Qed.

Lemma search_drops_generated_descriptions_witness :
  recommendations
    (handleSearch (backend [red_sofa; oak_chair])
       (RecommendationPage.generateAIDescription red_sofa
          (backend [red_sofa; oak_chair]) (page "sofa" [red_sofa])).1.2).1.2
  = [red_sofa]
  /\ recommendations
       (handleSearch (backend [red_sofa; oak_chair]) (page "sofa" [red_sofa])).1.2
     = [red_sofa].
Proof.
  apply (search_drops_generated_descriptions (backend [red_sofa; oak_chair])
           (backend [red_sofa; oak_chair]) (page "sofa" [red_sofa]) red_sofa
           [red_sofa]); reflexivity.
Defined.

End DescriptionsMore.

(* ===================================================================== *)
(** * testBackendConnection and loadSampleProducts                        *)
(* ===================================================================== *)

Section Mount.
Import JS PageTypes Api RecommendationPage Spec Vocabulary Samples MoreSamples View.

Lemma loadSampleProducts_run (b : Backend) (s : State) :
  loadSampleProducts b s =
    (Return tt,
     match served b with
     | Some ps => with_products s ps
     | None =>
         with_message s "Failed to load products. Please check backend connection."
     end,
     [GetSampleProducts]).
Proof.
  unfold loadSampleProducts, served. run_eff.
  destruct (get_sample_products b) as [response|]; simpl; [|reflexivity].
  destruct (data response); reflexivity.
Qed.

Lemma testBackendConnection_run (b : Backend) (s : State) :
  testBackendConnection b s =
    if healthy b then
      (Return tt,
       match served b with
       | Some ps => with_products (with_status s "connected") ps
       | None =>
           with_message (with_status s "connected")
             "Failed to load products. Please check backend connection."
       end,
       [GetHealth; GetSampleProducts])
    else (Return tt, with_status s "disconnected", [GetHealth]).
Proof.
  unfold testBackendConnection, healthy, setBackendStatus.
  unfold try_catch at 1. unfold mbind, Eff_bind, bind at 1.
  assert (healthCheck b s =
          (Return match get_health b with
                  | Return response => status response =? 200
                  | Throw _ => false
                  end, s, [GetHealth])) as ->.
  { run_eff. destruct (get_health b); reflexivity. }
  destruct (get_health b) as [response|]; [|reflexivity].
  destruct (status response =? 200); [|reflexivity].
  unfold mbind, Eff_bind, bind, modify. simpl.
  rewrite loadSampleProducts_run. reflexivity.
Qed.

(** X12: [testBackendConnection] never throws and always decides the
    status: it ends "connected" when the health check succeeded with status
    200 and "disconnected" otherwise, never "checking"; it asks for the
    sample products only when the backend is healthy. *)
Theorem testBackendConnection_decides_status (b : Backend) (s : State) :
  (testBackendConnection b s).1.1 = Return tt
  /\ backendStatus (testBackendConnection b s).1.2
     = (if healthy b then "connected" else "disconnected")
  /\ (testBackendConnection b s).2
     = (if healthy b then [GetHealth; GetSampleProducts] else [GetHealth]).
Proof.
  rewrite testBackendConnection_run.
  destruct (healthy b); simpl; [|tauto].
  destruct (served b); simpl; tauto.
Qed.

(** X13: with an unhealthy backend [testBackendConnection] changes the
    status only: the products on display stay and no error message is set. *)
Theorem testBackendConnection_unhealthy (b : Backend) (s : State) :
  healthy b = false ->
  testBackendConnection b s = (Return tt, with_status s "disconnected", [GetHealth]).
Proof. intros H. rewrite testBackendConnection_run, H. reflexivity. Qed.

Lemma testBackendConnection_unhealthy_witness :
  testBackendConnection unhealthy (page "sofa" [oak_chair])
  = (Return tt, with_status (page "sofa" [oak_chair]) "disconnected", [GetHealth]).
Proof.
  apply (testBackendConnection_unhealthy unhealthy (page "sofa" [oak_chair])).
  reflexivity.
Defined.

(** X14: with a healthy backend that serves its sample products, the page
    shows all of them after [testBackendConnection], those without a
    material included, and leaves the error as it was; every later
    successful search against the same backend shows a subsequence of
    them. *)
Theorem mount_shows_all_samples (b : Backend) (s : State) (ps : list Product) :
  healthy b = true ->
  served b = Some ps ->
  recommendations (testBackendConnection b s).1.2 = ps
  /\ error (testBackendConnection b s).1.2 = error s
  /\ (forall q found, search_outcome b q = Some found ->
        found `sublist_of` recommendations (testBackendConnection b s).1.2).
Proof.
  intros Hh Hs. rewrite testBackendConnection_run, Hh, Hs. simpl.
  repeat split. intros q found Hf.
  apply search_outcome_found in Hf as (ps' & Hs' & ->).
  assert (ps' = ps) as -> by congruence. apply filter_sublist.
Qed.

Lemma mount_shows_all_samples_witness :
  recommendations
    (testBackendConnection (backend [red_sofa; desk_lamp]) initial).1.2
  = [red_sofa; desk_lamp]
  /\ error (testBackendConnection (backend [red_sofa; desk_lamp]) initial).1.2
     = error initial
  /\ (forall q found,
        search_outcome (backend [red_sofa; desk_lamp]) q = Some found ->
        found `sublist_of`
          recommendations
            (testBackendConnection (backend [red_sofa; desk_lamp]) initial).1.2).
Proof.
  apply (mount_shows_all_samples (backend [red_sofa; desk_lamp]) initial
           [red_sofa; desk_lamp]); reflexivity.
Defined.

(** X15: with a healthy backend the page is "connected" whatever becomes
    of the sample-products request. When that request is rejected or
    answered with the body [null], the page shows "Failed to load products.
    Please check backend connection." at once and keeps the products on
    display. A reply whose body has no [products], such as an empty body,
    is no failure: the page shows no products and leaves the error as it
    was. *)
Theorem connected_but_not_loaded (b : Backend) (s : State) :
  healthy b = true ->
  backendStatus (testBackendConnection b s).1.2 = "connected"
  /\ (served b = None ->
      error (testBackendConnection b s).1.2
      = Some "Failed to load products. Please check backend connection."
      /\ recommendations (testBackendConnection b s).1.2 = recommendations s)
  /\ (forall response body,
        get_sample_products b = Return response ->
        data response = Some body -> products body = None ->
        error (testBackendConnection b s).1.2 = error s
        /\ recommendations (testBackendConnection b s).1.2 = []).
Proof.
  intros Hh. rewrite testBackendConnection_run, Hh. simpl. split; [|split].
  - now destruct (served b).
  - intros ->. simpl. tauto.
  - intros response body Hget Hbody Hproducts. unfold served.
    rewrite Hget, Hbody, Hproducts. simpl. tauto.
Qed.

Lemma connected_but_not_loaded_witness :
  backendStatus (testBackendConnection null_body initial).1.2 = "connected"
  /\ (served null_body = None ->
      error (testBackendConnection null_body initial).1.2
      = Some "Failed to load products. Please check backend connection."
      /\ recommendations (testBackendConnection null_body initial).1.2
         = recommendations initial)
  /\ (forall response body,
        get_sample_products null_body = Return response ->
        data response = Some body -> products body = None ->
        error (testBackendConnection null_body initial).1.2 = error initial
        /\ recommendations (testBackendConnection null_body initial).1.2 = []).
Proof.
  apply (connected_but_not_loaded null_body initial). reflexivity.
Defined.

(** Mounting against the two replies: the body [null] gives the error
    message, the empty body an empty display without a message. *)
Example testBackendConnection_null_and_empty_body :
  error (testBackendConnection null_body initial).1.2
  = Some "Failed to load products. Please check backend connection."
  /\ error (testBackendConnection empty_body initial).1.2 = None
  /\ recommendations (testBackendConnection empty_body initial).1.2 = [].
Proof. repeat split; reflexivity. Qed.

End Mount.

(* ===================================================================== *)
(** * The category chips of a product card                                *)
(* ===================================================================== *)

Section Chips.
Import JS PageTypes View.

#[local] Arguments String.append !_ _ / : simpl nomatch.

Lemma includes_cons_false (c : ascii) (x p : string) :
  includes (String c x) p = false -> includes x p = false.
Proof. cbn [includes]. intros H. now apply orb_false_elim in H. Qed.

Lemma append_char_assoc (cur : string) (c : ascii) (x : string) :
  (cur +:+ String c "") +:+ x = cur +:+ String c x.
Proof. now rewrite append_assoc. Qed.

(** Splitting a piece without separator that is followed by a separator. *)
Lemma split_piece_then (x y cur : string) :
  includes x ", " = false ->
  split_comma_space cur (x +:+ ", " +:+ y)
  = (cur +:+ x) :: split_comma_space "" y.
Proof.
  revert cur. induction x as [|c x IH]; intros cur Hx.
  - simpl. now rewrite append_empty_r.
  - pose proof (includes_cons_false _ _ _ Hx) as Hx'.
    specialize (IH (cur +:+ String c "") Hx').
    rewrite append_char_assoc in IH.
    destruct x as [|d x].
    + change (String c "" +:+ ", " +:+ y) with (String c (String "," (String " " y))).
      change ("" +:+ ", " +:+ y) with (String "," (String " " y)) in IH.
      cbn [split_comma_space].
      destruct (Ascii.eqb c ","); exact IH.
    + change (String c (String d x) +:+ ", " +:+ y)
        with (String c (String d (x +:+ ", " +:+ y))).
      change (String d x +:+ ", " +:+ y) with (String d (x +:+ ", " +:+ y)) in IH.
      cbn [split_comma_space].
      destruct (Ascii.eqb c "," && Ascii.eqb d " ") eqn:E; [|exact IH].
      apply andb_true_iff in E as [Ec Ed].
      apply Ascii.eqb_eq in Ec, Ed. subst. discriminate Hx.
Qed.

(** Splitting a last piece without separator. *)
Lemma split_piece_last (x cur : string) :
  includes x ", " = false ->
  split_comma_space cur x = [cur +:+ x].
Proof.
  revert cur. induction x as [|c x IH]; intros cur Hx.
  - simpl. now rewrite append_empty_r.
  - pose proof (includes_cons_false _ _ _ Hx) as Hx'.
    specialize (IH (cur +:+ String c "") Hx').
    rewrite append_char_assoc in IH.
    destruct x as [|d x]; cbn [split_comma_space]; [exact IH|].
    destruct (Ascii.eqb c "," && Ascii.eqb d " ") eqn:E; [|exact IH].
    apply andb_true_iff in E as [Ec Ed].
    apply Ascii.eqb_eq in Ec, Ed. subst. discriminate Hx.
Qed.

Lemma split_join (l : list string) :
  l <> [] ->
  Forall (fun x => includes x ", " = false) l ->
  split_comma_space "" (join_comma_space l) = l.
Proof.
  induction l as [|x l IH]; [congruence|]. intros _ H.
  apply Forall_cons in H as [Hx Hl]. destruct l as [|y l].
  - simpl. now rewrite split_piece_last.
  - change (join_comma_space (x :: y :: l))
      with (x +:+ ", " +:+ join_comma_space (y :: l)).
    rewrite split_piece_then by exact Hx. simpl (_ +:+ _).
    f_equal. apply IH; [discriminate | exact Hl].
Qed.

(** X16: the two forms of [categories] show the same chips: a product whose
    categories are the text of labels joined by ", " and a product whose
    categories are the array of these labels get the same chips, provided
    there is a label and no label contains ", "; and a card never has more
    than three chips. *)
Theorem chips_of_text_and_array (p p' : Product) (labels : list string) :
  labels <> [] ->
  Forall (fun x => includes x ", " = false) labels ->
  categories p = CategoryText (join_comma_space labels) ->
  categories p' = CategoryList labels ->
  chips p = chips p' /\ (length (chips p) <= 3)%nat.
Proof.
  intros Hne Hl Hp Hp'. unfold chips, categoryList.
  rewrite Hp, Hp', (split_join labels Hne Hl). split; [reflexivity|].
  rewrite length_map, length_take. lia.
Qed.

Lemma chips_of_text_and_array_witness :
  chips Samples.red_sofa = chips MoreSamples.array_sofa
  /\ (length (chips Samples.red_sofa) <= 3)%nat.
Proof.
  apply (chips_of_text_and_array Samples.red_sofa MoreSamples.array_sofa
           ["Home & Kitchen"; "Furniture"]).
  - discriminate.
  - repeat constructor.
  - reflexivity.
  - reflexivity.
Defined.

End Chips.

(* ===================================================================== *)
(** * The URL parameters of getProducts and searchProducts                *)
(* ===================================================================== *)

Section UrlParams.
Import JS Api ProductsApi Vocabulary.

Variable toString : Types.number -> string.

Lemma append_each_pairs (name : string) (vs : list string) (params : URLSearchParams) :
  append_each name vs params = params ++ pairs name vs.
Proof.
  unfold append_each, pairs. revert params.
  induction vs as [|v vs IH]; intros params; simpl.
  - now rewrite app_nil_r.
  - rewrite IH. unfold append. now rewrite <- app_assoc.
Qed.

Lemma append_array_pairs (name : string) (vs : option (list string))
    (params : URLSearchParams) :
  append_array name vs params = params ++ pairs name (or_else vs []).
Proof.
  destruct vs as [vs|]; simpl.
  - apply append_each_pairs.
  - now rewrite app_nil_r.
Qed.

Lemma append_number_pair (name : string) (x : option Types.number)
    (params : URLSearchParams) :
  append_number toString name x params = params ++ number_pair toString name x.
Proof. destruct x; simpl; [reflexivity | now rewrite app_nil_r]. Qed.

(** The filters add their parameters behind the ones already there. *)
Lemma append_filters_app (filters : option SearchFilters) (params : URLSearchParams) :
  append_filters toString filters params
  = params ++ append_filters toString filters [].
Proof.
  destruct filters as [f|]; simpl; [|now rewrite app_nil_r].
  rewrite !append_number_pair, !append_array_pairs. simpl.
  now rewrite <- !app_assoc.
Qed.

Lemma append_pagination_app (pagination : option PaginationParams)
    (params : URLSearchParams) :
  append_pagination toString pagination params
  = params ++ append_pagination toString pagination [].
Proof.
  destruct pagination as [p|]; simpl; [|now rewrite app_nil_r].
  unfold append.
  destruct (sort_by p) as [by_|]; [destruct (truthy by_)|];
    destruct (sort_order p); simpl; now rewrite <- ?app_assoc.
Qed.

Lemma getAll_app (name : string) (a b : URLSearchParams) :
  getAll name (a ++ b) = getAll name a ++ getAll name b.
Proof. unfold getAll. now rewrite List.filter_app, map_app. Qed.

Lemma getAll_pairs (name name' : string) (vs : list string) :
  getAll name (pairs name' vs) = if String.eqb name' name then vs else [].
Proof.
  unfold getAll, pairs. induction vs as [|v vs IH]; simpl.
  - now destruct (String.eqb name' name).
  - destruct (String.eqb name' name); simpl in *; [now rewrite IH | exact IH].
Qed.

Lemma filters_params (f : SearchFilters) :
  append_filters toString (Some f) []
  = pairs "categories" (or_else (categories f) [])
    ++ pairs "brands" (or_else (brands f) [])
    ++ pairs "materials" (or_else (materials f) [])
    ++ pairs "countries" (or_else (countries f) [])
    ++ number_pair toString "price_min" (price_min f)
    ++ number_pair toString "price_max" (price_max f).
Proof.
  simpl. rewrite !append_number_pair, !append_array_pairs. simpl.
  now rewrite <- !app_assoc.
Qed.

Lemma getAll_number_pair (name name' : string) (x : option Types.number) :
  getAll name (number_pair toString name' x)
  = if String.eqb name' name then number_values toString x else [].
Proof.
  destruct x; unfold getAll; simpl; now destruct (String.eqb name' name).
Qed.

Lemma pagination_params (p : PaginationParams) :
  append_pagination toString (Some p) []
  = pairs "page" [toString (page p)]
    ++ pairs "limit" [toString (limit p)]
    ++ pairs "sort_by" (sort_by_values p)
    ++ pairs "sort_order" (sort_order_values p).
Proof.
  unfold sort_by_values, sort_order_values, append. simpl.
  destruct (sort_by p) as [by_|]; [destruct (truthy by_)|];
    destruct (sort_order p); reflexivity.
Qed.

Lemma getAll_pagination (name : string) (pagination : option PaginationParams) :
  String.eqb "page" name = false -> String.eqb "limit" name = false ->
  String.eqb "sort_by" name = false -> String.eqb "sort_order" name = false ->
  getAll name (append_pagination toString pagination []) = [].
Proof.
  intros H1 H2 H3 H4. destruct pagination as [p|]; [|reflexivity].
  rewrite pagination_params, !getAll_app, !getAll_pairs.
  now rewrite H1, H2, H3, H4.
Qed.

(** X17: [searchProducts] sends the parameters of [getProducts] for the
    same filters and pagination, with the query under ["q"] in front. *)
Theorem searchProducts_params_extend (query : string)
    (filters : option SearchFilters) (pagination : option PaginationParams) :
  searchProducts_params toString query filters pagination
  = ("q", query) :: getProducts_params toString filters pagination.
Proof.
  unfold searchProducts_params, getProducts_params, append. simpl.
  rewrite (append_pagination_app pagination (append_filters _ _ [_])).
  rewrite (append_filters_app filters [_]).
  rewrite (append_pagination_app pagination (append_filters _ _ [])).
  reflexivity.
Qed.

(** X18: the filters can be read back from the parameters of
    [getProducts]: [getAll] returns the categories, brands, materials and
    countries in their order (nothing for a missing or empty array) and the
    text of each price bound that is present, a bound of 0 included,
    whatever the pagination. *)
Theorem getProducts_params_round_trip (f : SearchFilters)
    (pagination : option PaginationParams) :
  let params := getProducts_params toString (Some f) pagination in
  getAll "categories" params = or_else (categories f) []
  /\ getAll "brands" params = or_else (brands f) []
  /\ getAll "materials" params = or_else (materials f) []
  /\ getAll "countries" params = or_else (countries f) []
  /\ getAll "price_min" params = number_values toString (price_min f)
  /\ getAll "price_max" params = number_values toString (price_max f).
Proof.
  unfold getProducts_params.
  rewrite append_pagination_app, filters_params.
  repeat split;
    rewrite !getAll_app, !getAll_pairs, !getAll_number_pair,
      getAll_pagination by reflexivity;
    simpl; now rewrite ?app_nil_r.
Qed.

(** X19: the pagination can be read back as well: [page] and [limit] are
    always sent; [sort_by] is sent when present and not empty, and
    [sort_order] when present. *)
Theorem getProducts_params_pagination (filters : option SearchFilters)
    (p : PaginationParams) :
  let params := getProducts_params toString filters (Some p) in
  getAll "page" params = [toString (page p)]
  /\ getAll "limit" params = [toString (limit p)]
  /\ getAll "sort_by" params
     = match sort_by p with
       | Some by_ => if truthy by_ then [by_] else []
       | None => []
       end
  /\ getAll "sort_order" params
     = match sort_order p with
       | Some o => [sort_order_text o]
       | None => []
       end.
Proof.
  unfold getProducts_params. rewrite append_pagination_app.
  assert (forall name,
            String.eqb "categories" name = false ->
            String.eqb "brands" name = false ->
            String.eqb "materials" name = false ->
            String.eqb "countries" name = false ->
            String.eqb "price_min" name = false ->
            String.eqb "price_max" name = false ->
            getAll name (append_filters toString filters []) = []) as Hf.
  { intros name H1 H2 H3 H4 H5 H6. destruct filters as [f|]; [|reflexivity].
    rewrite filters_params, !getAll_app, !getAll_pairs, !getAll_number_pair.
    now rewrite H1, H2, H3, H4, H5, H6. }
  repeat split; rewrite getAll_app, Hf by reflexivity;
    rewrite pagination_params, !getAll_app, !getAll_pairs; simpl;
    rewrite ?app_nil_r; reflexivity.
Qed.

End UrlParams.

Section TypedMethods.
Import JS Api ProductsApi Spec.
Context {T : Type}.

Lemma typed_call (message : string)
    (answer : Completion (AxiosResponse (option (Reply T)))) :
  try_catchC (bindC (response_interceptor answer) data_data)
    (fun _ => Throw (Error message))
  = match answer with
    | Return response =>
        match data response with
        | Some body => Return (reply_data body)
        | None => Throw (Error message)
        end
    | Throw _ => Throw (Error message)
    end.
Proof.
  destruct answer as [response|]; simpl; [|reflexivity].
  unfold data_data. now destruct (data response).
Qed.

(** X20: [getAnalytics], [getProducts], [getProduct] and [searchProducts]
    replace the error of a rejected request, and the [TypeError] of reading
    [data] of the body [null], by their own fixed message, so the message
    names the call that failed and the cause is lost. Every other reply is
    returned as its [data] property, whatever its [success] flag says, and
    as [undefined] when the body has no [data], as an empty body has. *)
Theorem typed_methods_replace_errors
    (answer : Completion (AxiosResponse (option (Reply T)))) :
  if rejected_or_null answer then
    getAnalytics answer = Throw (Error "Failed to fetch analytics data")
    /\ getProducts answer = Throw (Error "Failed to fetch products")
    /\ getProduct answer = Throw (Error "Failed to fetch product")
    /\ searchProducts answer = Throw (Error "Failed to search products")
  else
    exists response body,
      answer = Return response /\ data response = Some body
      /\ getAnalytics answer = Return (reply_data body)
      /\ getProducts answer = Return (reply_data body)
      /\ getProduct answer = Return (reply_data body)
      /\ searchProducts answer = Return (reply_data body).
Proof.
  unfold getAnalytics, getProducts, getProduct, searchProducts, rejected_or_null.
  rewrite !typed_call.
  destruct answer as [response|]; [|tauto].
  destruct (data response) as [body|] eqn:E; [|tauto].
  exists response, body. tauto.
Qed.

(** A reply that reports a failure in its body, and an empty body: neither
    makes a method throw. *)
Example typed_methods_on_reported_failure :
  getProducts
    (Return {| status := 200;
               data := Some {| reply_success := Some false;
                               reply_data := Some ["p1"];
                               reply_message := None;
                               reply_error := Some "database offline" |} |})
  = Return (Some ["p1"])
  /\ @getProducts (list string)
       (Return {| status := 200;
                  data := Some {| reply_success := None; reply_data := None;
                                  reply_message := None;
                                  reply_error := None |} |})
     = Return None.
Proof. split; reflexivity. Qed.

End TypedMethods.

Section UrlParamsSample.
Import ProductsApi MoreSamples.

(** The parameters of a sample call, in the order of their [append]: the
    empty [brands] array and the missing [materials] add nothing, the price
    bound 0 is sent. *)
Example getProducts_params_sample :
  getProducts_params show_number (Some sofa_filters) (Some first_page)
  = [("categories", "Sofas"); ("categories", "Chairs"); ("countries", "IN");
     ("price_min", "0"); ("page", "1"); ("limit", "20"); ("sort_by", "price");
     ("sort_order", "desc")].
Proof. reflexivity. Qed.

End UrlParamsSample.

(* ===================================================================== *)
(** * AnalyticsPage                                                       *)
(* ===================================================================== *)

Section Analytics.
Import JS Api ProductsApi AnalyticsPage Vocabulary.
Context {number : Type}.

(** The fetch of the page, from the answer of axios on. *)
Lemma fetchAnalytics_run (answer : overview_answer number) (s : @State number) :
  fetchAnalytics (getAnalyticsOverview answer) s =
    match answer with
    | Return response =>
        match Api.data response with
        | Some o =>
            if is_success (AnalyticsPage.status o) then
              match AnalyticsPage.data o with
              | Some d =>
                  {| analyticsData := Some (dashboard_data d); loading := false;
                     error := None |}
              | None =>
                  analytics_failed s "Failed to connect to analytics service"
              end
            else analytics_failed s "Failed to load analytics data"
        | None => analytics_failed s "Failed to connect to analytics service"
        end
    | Throw _ => analytics_failed s "Failed to connect to analytics service"
    end.
Proof.
  unfold fetchAnalytics, getAnalyticsOverview, pass_through, read_overview.
  destruct answer as [response|]; simpl; [|reflexivity].
  destruct (Api.data response) as [o|]; simpl; [|reflexivity].
  destruct (is_success (AnalyticsPage.status o)); [|reflexivity].
  destruct (AnalyticsPage.data o); reflexivity.
Qed.

Lemma is_success_spec (status : option string) :
  is_success status = true <-> status = Some "success".
Proof.
  destruct status as [text|]; simpl; [|split; discriminate].
  rewrite String.eqb_eq. split; congruence.
Qed.

(** X21: after [fetchAnalytics] the component never returns the spinner
    nor "No analytics data available", whatever the page showed before. It
    returns the dashboard or an error alert, but for one answer: a
    "success" overview whose data has no number under [average_price] is
    stored as it is, and the component then throws a [TypeError] at
    [averagePrice.toFixed(2)]. *)
Theorem fetchAnalytics_never_blank (answer : overview_answer number) (s : @State number) :
  let shown := paint (fetchAnalytics (getAnalyticsOverview answer) s) in
  (shown = Throw TypeError <-> average_price_missing answer = true)
  /\ (average_price_missing answer = false ->
      (exists d, shown = Return (Dashboard d))
      \/ (exists message, shown = Return (ErrorAlert message))).
Proof.
  rewrite fetchAnalytics_run. unfold average_price_missing, paint.
  destruct answer as [response|]; simpl;
    [|split; [split; discriminate | intros _; right; eexists; reflexivity]].
  destruct (Api.data response) as [o|]; simpl;
    [|split; [split; discriminate | intros _; right; eexists; reflexivity]].
  destruct (is_success (AnalyticsPage.status o)); simpl;
    [|split; [split; discriminate | intros _; right; eexists; reflexivity]].
  destruct (AnalyticsPage.data o) as [d|]; simpl;
    [|split; [split; discriminate | intros _; right; eexists; reflexivity]].
  destruct (average_price d); simpl.
  - split; [split; discriminate | intros _; left; eexists; reflexivity].
  - split; [tauto | discriminate].
Qed.

(** X22: an overview with status "success" and data that holds an average
    price replaces what the page had: the dashboard shows the numbers of
    the overview, an array missing from it as an empty one, and an earlier
    error is cleared. *)
Theorem fetchAnalytics_success (answer : overview_answer number) (s : @State number)
    (response : AxiosResponse (option (@Overview number)))
    (o : @Overview number) (d : @OverviewData number) (average : number) :
  answer = Return response -> Api.data response = Some o ->
  AnalyticsPage.status o = Some "success" -> AnalyticsPage.data o = Some d ->
  average_price d = Some average ->
  fetchAnalytics (getAnalyticsOverview answer) s
    = {| analyticsData := Some (dashboard_data d); loading := false;
         error := None |}
  /\ paint (fetchAnalytics (getAnalyticsOverview answer) s)
     = Return (Dashboard (dashboard_data d))
  /\ averagePrice (dashboard_data d) = Some average.
Proof.
  intros -> Hr Hs Hd Ha. rewrite fetchAnalytics_run, Hr, Hs, Hd. simpl.
  unfold paint. simpl. rewrite Ha. auto.
Qed.

(** X23: an overview with any other status is answered with "Failed to
    load analytics data"; the data loaded before stays in the state, but
    the page renders the alert instead of it. *)
Theorem fetchAnalytics_refused (answer : overview_answer number) (s : @State number)
    (response : AxiosResponse (option (@Overview number))) (o : @Overview number) :
  answer = Return response -> Api.data response = Some o ->
  AnalyticsPage.status o <> Some "success" ->
  fetchAnalytics (getAnalyticsOverview answer) s
    = analytics_failed s "Failed to load analytics data"
  /\ render (fetchAnalytics (getAnalyticsOverview answer) s)
     = ErrorAlert "Failed to load analytics data".
Proof.
  intros -> Hr Hs. rewrite fetchAnalytics_run, Hr.
  destruct (is_success (AnalyticsPage.status o)) eqn:E; [|auto].
  apply is_success_spec in E. contradiction.
Qed.

(** X24: a rejected request, a reply with the body [null] and a "success"
    overview whose [data] is missing or [null] are all reported as "Failed
    to connect to analytics service", with the data loaded before kept in
    the state. *)
Theorem fetchAnalytics_unreadable (answer : overview_answer number) (s : @State number) :
  overview_unreadable answer = true ->
  fetchAnalytics (getAnalyticsOverview answer) s
    = analytics_failed s "Failed to connect to analytics service"
  /\ paint (fetchAnalytics (getAnalyticsOverview answer) s)
     = Return (ErrorAlert "Failed to connect to analytics service").
Proof.
  intros H. rewrite fetchAnalytics_run. unfold overview_unreadable in H.
  destruct answer as [response|]; [|auto].
  destruct (Api.data response) as [o|]; [|auto].
  destruct (is_success (AnalyticsPage.status o)); [|discriminate].
  destruct (AnalyticsPage.data o); [discriminate | auto].
Qed.

End Analytics.

Section AnalyticsWitnesses.
Import JS Api ProductsApi AnalyticsPage Vocabulary MoreSamples.

Lemma fetchAnalytics_success_witness :
  fetchAnalytics
    (getAnalyticsOverview (Return {| Api.status := 200; Api.data := Some overview_ok |}))
    initial
    = {| analyticsData := Some (dashboard_data overview_data); loading := false;
         error := None |}
  /\ paint
       (fetchAnalytics
          (getAnalyticsOverview
             (Return {| Api.status := 200; Api.data := Some overview_ok |}))
          initial)
     = Return (Dashboard (dashboard_data overview_data))
  /\ averagePrice (dashboard_data overview_data) = Some 64.
Proof.
  apply (fetchAnalytics_success
           (Return {| Api.status := 200; Api.data := Some overview_ok |}) initial
           {| Api.status := 200; Api.data := Some overview_ok |}
           overview_ok overview_data 64); reflexivity.
Defined.

Lemma fetchAnalytics_never_blank_witness :
  (exists d,
     paint
       (fetchAnalytics
          (getAnalyticsOverview
             (Return {| Api.status := 200; Api.data := Some overview_ok |}))
          initial)
     = Return (Dashboard d))
  \/ (exists message,
        paint
          (fetchAnalytics
             (getAnalyticsOverview
                (Return {| Api.status := 200; Api.data := Some overview_ok |}))
             initial)
        = Return (ErrorAlert message)).
Proof.
  apply (proj2 (fetchAnalytics_never_blank
                  (Return {| Api.status := 200; Api.data := Some overview_ok |})
                  initial)).
  reflexivity.
Defined.

(** A "success" overview without an average price: the data is stored and
    the component throws. *)
Example fetchAnalytics_without_average :
  paint
    (fetchAnalytics
       (getAnalyticsOverview
          (Return {| Api.status := 200; Api.data := Some overview_without_average |}))
       initial)
  = Throw TypeError.
Proof. reflexivity. Qed.

Lemma fetchAnalytics_refused_witness :
  fetchAnalytics
    (getAnalyticsOverview
       (Return {| Api.status := 200; Api.data := Some overview_error |}))
    loaded_analytics
    = analytics_failed loaded_analytics "Failed to load analytics data"
  /\ render
       (fetchAnalytics
          (getAnalyticsOverview
             (Return {| Api.status := 200; Api.data := Some overview_error |}))
          loaded_analytics)
     = ErrorAlert "Failed to load analytics data".
Proof.
  apply (fetchAnalytics_refused
           (Return {| Api.status := 200; Api.data := Some overview_error |})
           loaded_analytics
           {| Api.status := 200; Api.data := Some overview_error |}
           overview_error); [reflexivity | reflexivity | discriminate].
Defined.

(** The empty body of a reply has no status: the page answers it like a
    refused overview, not like a lost connection. *)
Example fetchAnalytics_empty_body :
  fetchAnalytics
    (getAnalyticsOverview
       (Return {| Api.status := 200; Api.data := Some overview_empty |}))
    loaded_analytics
  = analytics_failed loaded_analytics "Failed to load analytics data"
  /\ overview_unreadable
       (Return {| Api.status := 200; Api.data := Some overview_empty |})
     = false.
Proof. split; reflexivity. Qed.

Lemma fetchAnalytics_unreadable_witness :
  fetchAnalytics
    (getAnalyticsOverview (Throw (AxiosError "Network Error"))) loaded_analytics
    = analytics_failed loaded_analytics "Failed to connect to analytics service"
  /\ paint
       (fetchAnalytics
          (getAnalyticsOverview (Throw (AxiosError "Network Error")))
          loaded_analytics)
     = Return (ErrorAlert "Failed to connect to analytics service").
Proof.
  apply (fetchAnalytics_unreadable (Throw (AxiosError "Network Error"))
           loaded_analytics).
  reflexivity.
Defined.

(** X25: every cell of the category pie gets one of the four colours, and
    the colours repeat every four cells. *)
Theorem cellFill_cycles (index : nat) :
  (exists colour, cellFill index = Some colour /\ In colour COLORS)
  /\ cellFill (index + 4) = cellFill index.
Proof.
  unfold cellFill. change (length COLORS) with 4%nat. split.
  - pose proof (Nat.mod_upper_bound index 4 ltac:(lia)) as H.
    destruct (index mod 4)%nat as [|[|[|[|n]]]] eqn:E; [| | | |lia];
      eexists; (split; [reflexivity|]); simpl; tauto.
  - replace (index + 4)%nat with (index + 1 * 4)%nat by lia.
    now rewrite Nat.Div0.mod_add.
Qed.

End AnalyticsWitnesses.
